(** * master-table: the record form of [frontend/src/App.tsx]

    A shallow embedding of the single React component of the repository:
    the validation schema ([userDataSchema]), the four HTTP helpers
    ([getUsers], [createUser], [deleteUser], [updateUser]) and the handlers
    of [App] ([clearField], [onSubmit], [setSelectedRow], the two effects).

    - JavaScript numbers are IEEE-754 values ([spec_float]); [Date] objects
      are their time value, or the invalid date.
    - Side effects (axios calls, [window.location.reload], [console.log])
      are appended to a trace; [new Date()] reads a clock.
    - Handlers are closures over the values of the render that created them;
      state setters write the next state. *)

From Stdlib Require Import ZArith List String Bool Lia.
From Stdlib Require Import SpecFloat.
Import ListNotations.
Open Scope string_scope.

(* ================================================================= *)
(** ** JavaScript values *)

Module Js.

(** [number]: a binary64 value, as the IEEE-754 datum it is. *)
Definition number : Type := spec_float.

Definition zero : number := S754_zero false.
Definition NaN : number := S754_nan.

(** The number literal of a positive integer, [m * 2^0]. *)
Definition of_pos (p : positive) : number := S754_finite false p 0.

Definition isNaN (x : number) : bool :=
  match x with S754_nan => true | _ => false end.

(** [Number.isInteger(x)]: finite, and no fractional part.  A finite
    non-zero value is [(-1)^s * m * 2^e]. *)
Definition isInteger (x : number) : bool :=
  match x with
  | S754_zero _ => true
  | S754_finite _ m e =>
      if (0 <=? e)%Z then true else (Z.pos m mod 2 ^ (- e) =? 0)%Z
  | S754_infinity _ | S754_nan => false
  end.

(** [x <= y] and [x < y] of the language (false when either side is NaN). *)
Definition le (x y : number) : bool := SFleb x y.
Definition lt (x y : number) : bool := SFltb x y.

(** The mathematical integer a number stands for, when it stands for one:
    [denotes x n] reads "the value of [x] is the integer [n]". *)
Definition denotes (x : number) (n : Z) : Prop :=
  match x with
  | S754_zero _ => n = 0%Z
  | S754_finite s m e =>
      if (0 <=? e)%Z
      then n = (cond_Zopp s (Z.pos m) * 2 ^ e)%Z
      else cond_Zopp s (Z.pos m) = (n * 2 ^ (- e))%Z
  | S754_infinity _ | S754_nan => False
  end.

(** A positive integer, as the specification means it. *)
Definition positive_integer (x : number) : Prop :=
  exists n : Z, (0 < n)%Z /\ denotes x n.

(** [Date]: the time value in milliseconds since the epoch, or the
    invalid date (time value NaN). *)
Inductive Date : Type :=
| InvalidDate
| DateAt (ms : Z).

(** [date.getTime()] is NaN exactly for the invalid date. *)
Definition getTime_isNaN (d : Date) : bool :=
  match d with InvalidDate => true | DateAt _ => false end.

(** [new Date(date)] copies the time value. *)
Definition Date_copy (d : Date) : Date := d.

Definition valid_date (d : Date) : Prop := exists ms, d = DateAt ms.

(** [s.length < n] only needs the number of code units. *)
Definition length (s : string) : nat := String.length s.

(** What [console.log(error)] receives from a rejected request. *)
Definition Error : Type := string.

End Js.

(* ================================================================= *)
(** ** The data of the application (lines 9-22) *)

(** [type User].  The object's identity is kept next to its contents:
    React compares state values and effect dependencies with [Object.is],
    the table with [===].  User objects are never mutated. *)
Module User.
Record t : Type := mk
  { ref : nat;            (* identity of the object *)
    id : Js.number;
    name : string;
    empId : Js.number;
    birthDate : Js.Date }.
End User.

(** [type CreateUserData]; [UserDataSchemaType] is the same shape. *)
Module CreateUserData.
Record t : Type := mk
  { name : string;
    empId : Js.number;
    birthDate : Js.Date }.
End CreateUserData.

Definition UserDataSchemaType : Type := CreateUserData.t.

(** [type UpdateUserData = Partial<CreateUserData>]: every key optional. *)
Module UpdateUserData.
Record t : Type := mk
  { name : option string;
    empId : option Js.number;
    birthDate : option Js.Date }.

(** A full object used where the partial type is expected. *)
Definition of_full (d : CreateUserData.t) : t :=
  {| name := Some (CreateUserData.name d);
     empId := Some (CreateUserData.empId d);
     birthDate := Some (CreateUserData.birthDate d) |}.
End UpdateUserData.

(** [Object.is] on [User | null]: two nulls, or the same object. *)
Definition Object_is (a b : option User.t) : bool :=
  match a, b with
  | None, None => true
  | Some x, Some y => Nat.eqb (User.ref x) (User.ref y)
  | _, _ => false
  end.

(* ================================================================= *)
(** ** The schema library, as far as [userDataSchema] uses it *)

Module Zod.

Inductive ZodIssueCode : Type := invalid_type | too_small | invalid_date.

(** The keys of the object schema are the paths of its issues. *)
Inductive Path : Type := p_name | p_empId | p_birthDate.

Record ZodIssue : Type :=
  { code : ZodIssueCode; path : Path; message : string }.

(** Checks are kept in the order the builder methods were called. *)
Inductive StringCheck : Type :=
| s_min (value : nat) (message : string).

Inductive NumberCheck : Type :=
| n_int (message : string)
| n_min (value : Js.number) (inclusive : bool) (message : string).

Record ZodString : Type := { s_checks : list StringCheck }.
Record ZodNumber : Type := { n_checks : list NumberCheck }.
Inductive ZodDate : Type := mkZodDate.

(** [z.string()], [z.number()], [z.date()] and the refinements used. *)
Definition string_ : ZodString := {| s_checks := [] |}.
Definition number_ : ZodNumber := {| n_checks := [] |}.
Definition date_ : ZodDate := mkZodDate.

Definition min (value : nat) (message : string) (s : ZodString) : ZodString :=
  {| s_checks := s_checks s ++ [s_min value message] |}.
Definition int (message : string) (s : ZodNumber) : ZodNumber :=
  {| n_checks := n_checks s ++ [n_int message] |}.
(** [.positive(m)] is the exclusive minimum 0. *)
Definition positive (message : string) (s : ZodNumber) : ZodNumber :=
  {| n_checks := n_checks s ++ [n_min Js.zero false message] |}.

(** Messages of the library's default error map, for the issues the
    schema gives no message to. *)
Definition default_nan_message : string := "Expected number, received nan".
Definition default_invalid_date_message : string := "Invalid date".

Definition issue (c : ZodIssueCode) (p : Path) (m : string) : ZodIssue :=
  {| code := c; path := p; message := m |}.

Definition run_string_check (p : Path) (data : string) (c : StringCheck)
  : list ZodIssue :=
  match c with
  | s_min value m =>
      if Nat.ltb (Js.length data) value then [issue too_small p m] else []
  end.

Definition run_number_check (p : Path) (data : Js.number) (c : NumberCheck)
  : list ZodIssue :=
  match c with
  | n_int m =>
      if negb (Js.isInteger data) then [issue invalid_type p m] else []
  | n_min value inclusive m =>
      let tooSmall :=
        if inclusive then Js.lt data value else Js.le data value in
      if tooSmall then [issue too_small p m] else []
  end.

(** A string is always of the right type here; every check is run. *)
Definition parse_string (s : ZodString) (p : Path) (data : string)
  : list ZodIssue :=
  flat_map (run_string_check p data) (s_checks s).

(** NaN is not of type number: the type issue ends the parse.  Otherwise
    every check is run, in order, and each failure adds its issue. *)
Definition parse_number (s : ZodNumber) (p : Path) (data : Js.number)
  : list ZodIssue :=
  if Js.isNaN data then [issue invalid_type p default_nan_message]
  else flat_map (run_number_check p data) (n_checks s).

Definition parse_date (s : ZodDate) (p : Path) (data : Js.Date)
  : list ZodIssue :=
  if Js.getTime_isNaN data
  then [issue invalid_date p default_invalid_date_message]
  else [].

(** [z.object({ name, empId, birthDate })]. *)
Record ZodObject : Type :=
  { shape_name : ZodString;
    shape_empId : ZodNumber;
    shape_birthDate : ZodDate }.

(** Keys are parsed in the order of the shape. *)
Definition issues_of (o : ZodObject) (data : CreateUserData.t)
  : list ZodIssue :=
  parse_string (shape_name o) p_name (CreateUserData.name data)
  ++ parse_number (shape_empId o) p_empId (CreateUserData.empId data)
  ++ parse_date (shape_birthDate o) p_birthDate
       (CreateUserData.birthDate data).

(** [safeParse]: the parsed object, or the issues.  The parsed object
    has the three keys with the values that were checked. *)
Definition safeParse (o : ZodObject) (data : CreateUserData.t)
  : UserDataSchemaType + list ZodIssue :=
  match issues_of o data with
  | [] => inl (CreateUserData.mk (CreateUserData.name data)
                 (CreateUserData.empId data)
                 (Js.Date_copy (CreateUserData.birthDate data)))
  | i :: rest => inr (i :: rest)
  end.

End Zod.

(** Lines 24-29. *)
Definition userDataSchema : Zod.ZodObject :=
  {| Zod.shape_name :=
       Zod.min 1 "１文字以上で入力してください" Zod.string_;
     Zod.shape_empId :=
       Zod.positive "1以上で入力してください"
         (Zod.int "整数値で入力してください" Zod.number_);
     Zod.shape_birthDate := Zod.date_ |}.

(* ================================================================= *)
(** ** The world outside the component *)

(** The two endpoints: ["http://localhost:3000/user"] and
    [`http://localhost:3000/user/${id}`]. *)
Inductive Url : Type :=
| user_url
| user_id_url (id : Js.number).

(** What the component does to the outside, in the order it does it. *)
Inductive Effect : Type :=
| axios_get (url : Url)
| axios_post (url : Url) (data : CreateUserData.t)
| axios_delete (url : Url)
| axios_patch (url : Url) (data : UpdateUserData.t)
| location_reload
| console_log (error : Js.Error).

(** A promise is represented by how it settles. *)
Inductive Settled (A : Type) : Type :=
| Fulfilled (value : A)
| Rejected (reason : Js.Error).
Arguments Fulfilled {A} value.
Arguments Rejected {A} reason.

(** [AxiosResponse], with the part that is read. *)
Record AxiosResponse : Type := { data : list User.t }.

(** The environment decides what the clock shows at each reading and how
    each request settles. *)
Record Env : Type :=
  { clock : nat -> Z;
    network : Effect -> Settled AxiosResponse }.

Record World : Type :=
  { reads : nat;              (* readings of the clock so far *)
    trace : list Effect }.

(** A request that changes the backend. *)
Definition is_mutation (e : Effect) : bool :=
  match e with
  | axios_post _ _ | axios_delete _ | axios_patch _ _ => true
  | _ => false
  end.

Definition is_request (e : Effect) : bool :=
  match e with
  | axios_get _ | axios_post _ _ | axios_delete _ | axios_patch _ _ => true
  | _ => false
  end.

Definition is_reload (e : Effect) : bool :=
  match e with location_reload => true | _ => false end.

(* ================================================================= *)
(** ** The form library: field errors and the resolver *)

Module Hookform.

Record FieldError : Type :=
  { type : Zod.ZodIssueCode; message : string }.

(** [formState.errors]. *)
Record FieldErrors : Type :=
  { name : option FieldError;
    empId : option FieldError;
    birthDate : option FieldError }.

Definition no_errors : FieldErrors :=
  {| name := None; empId := None; birthDate := None |}.

Definition get (p : Zod.Path) (e : FieldErrors) : option FieldError :=
  match p with
  | Zod.p_name => name e
  | Zod.p_empId => empId e
  | Zod.p_birthDate => birthDate e
  end.

Definition set (p : Zod.Path) (v : FieldError) (e : FieldErrors)
  : FieldErrors :=
  match p with
  | Zod.p_name =>
      {| name := Some v; empId := empId e; birthDate := birthDate e |}
  | Zod.p_empId =>
      {| name := name e; empId := Some v; birthDate := birthDate e |}
  | Zod.p_birthDate =>
      {| name := name e; empId := empId e; birthDate := Some v |}
  end.

(** The resolver keeps, for each path, the first issue reported for it. *)
Fixpoint parseErrorSchema (issues : list Zod.ZodIssue) (errors : FieldErrors)
  : FieldErrors :=
  match issues with
  | [] => errors
  | i :: rest =>
      parseErrorSchema rest
        match get (Zod.path i) errors with
        | Some _ => errors
        | None =>
            set (Zod.path i)
              {| type := Zod.code i; message := Zod.message i |} errors
        end
  end.

(** [zodResolver(schema)]: the parsed values and no error, or no value
    and the errors. *)
Definition zodResolver (schema : Zod.ZodObject) (values : CreateUserData.t)
  : option UserDataSchemaType * FieldErrors :=
  match Zod.safeParse schema values with
  | inl parsed => (Some parsed, no_errors)
  | inr issues => (None, parseErrorSchema issues no_errors)
  end.

End Hookform.

(* ================================================================= *)
(** ** The component *)

Module App.

(** The state cells of [App] (lines 58, 69-72) and of [useForm]
    (line 106): the values last given to [reset], and the errors. *)
Record State : Type :=
  { users : list User.t;
    name : string;
    selectedUser : option User.t;
    empId : Js.number;
    birthDate : Js.Date;
    formValues : option CreateUserData.t;
    errors : Hookform.FieldErrors }.

Record Sys : Type := { state : State; world : World }.

(** Programs that read and write the component and the world. *)
Definition M (A : Type) : Type := Sys -> A * Sys.

Definition ret {A} (a : A) : M A := fun s => (a, s).
Definition bind {A B} (m : M A) (k : A -> M B) : M B :=
  fun s => let (a, s') := m s in k a s'.

Declare Scope js_scope.
Delimit Scope js_scope with js.
Notation "x <- m ;; k" := (bind m (fun x => k))
  (at level 61, m at next level, right associativity) : js_scope.
Notation "m ;; k" := (bind m (fun _ => k))
  (at level 61, right associativity) : js_scope.
Local Open Scope js_scope.

Definition exec {A} (m : M A) (s : Sys) : Sys := snd (m s).

Definition modify (f : State -> State) : M unit :=
  fun s => (tt, {| state := f (state s); world := world s |}).

Definition emit (e : Effect) : M unit :=
  fun s => (tt, {| state := state s;
                   world := {| reads := reads (world s);
                               trace := trace (world s) ++ [e] |} |}).

(** [when c m]: [if (c) { m }]. *)
Definition when (c : bool) (m : M unit) : M unit :=
  if c then m else ret tt.

(** A value of type [User | null] used as a condition. *)
Definition truthy (u : option User.t) : bool :=
  match u with Some _ => true | None => false end.

(** *** State setters *)

Definition setUsers (v : list User.t) : M unit :=
  modify (fun s =>
    {| users := v; name := name s; selectedUser := selectedUser s;
       empId := empId s; birthDate := birthDate s;
       formValues := formValues s; errors := errors s |}).

Definition setName (v : string) : M unit :=
  modify (fun s =>
    {| users := users s; name := v; selectedUser := selectedUser s;
       empId := empId s; birthDate := birthDate s;
       formValues := formValues s; errors := errors s |}).

Definition setSelectedUser (v : option User.t) : M unit :=
  modify (fun s =>
    {| users := users s; name := name s; selectedUser := v;
       empId := empId s; birthDate := birthDate s;
       formValues := formValues s; errors := errors s |}).

Definition setEmpId (v : Js.number) : M unit :=
  modify (fun s =>
    {| users := users s; name := name s; selectedUser := selectedUser s;
       empId := v; birthDate := birthDate s;
       formValues := formValues s; errors := errors s |}).

Definition setBirthDate (v : Js.Date) : M unit :=
  modify (fun s =>
    {| users := users s; name := name s; selectedUser := selectedUser s;
       empId := empId s; birthDate := v;
       formValues := formValues s; errors := errors s |}).

(** [reset(values)] of the form library: it holds the given values from
    then on and, called without options as on line 98, it drops the errors
    of the form state. *)
Definition reset (v : CreateUserData.t) : M unit :=
  modify (fun s =>
    {| users := users s; name := name s; selectedUser := selectedUser s;
       empId := empId s; birthDate := birthDate s;
       formValues := Some v; errors := Hookform.no_errors |}).

Definition setErrors (v : Hookform.FieldErrors) : M unit :=
  modify (fun s =>
    {| users := users s; name := name s; selectedUser := selectedUser s;
       empId := empId s; birthDate := birthDate s;
       formValues := formValues s; errors := v |}).

Section WithEnv.

Variable env : Env.

(** [new Date()]: one reading of the clock.  Only the readings whose value
    is kept are counted; the argument of [useState] on line 72 is read
    again, and dropped, on each later render. *)
Definition new_Date : M Js.Date :=
  fun s =>
    (Js.DateAt (clock env (reads (world s))),
     {| state := state s;
        world := {| reads := S (reads (world s));
                    trace := trace (world s) |} |}).

(** An axios call sends the request and returns its promise. *)
Definition axios (request : Effect) : M (Settled AxiosResponse) :=
  emit request ;; ret (network env request).

Definition window_location_reload : M unit := emit location_reload.

(** *** Lines 38-55 *)

Definition getUsers : M (Settled AxiosResponse) :=
  axios (axios_get user_url).

Definition createUser (data : CreateUserData.t)
  : M (Settled AxiosResponse) :=
  user <- axios (axios_post user_url data) ;;
  ret user.

Definition deleteUser (id : Js.number) : M unit :=
  axios (axios_delete (user_id_url id)) ;;
  window_location_reload.

Definition updateUser (id : Js.number) (data : UpdateUserData.t)
  : M unit :=
  axios (axios_patch (user_id_url id) data) ;;
  window_location_reload.

(** *** Lines 59-67: the continuations of the list request

    [p.then(res => setUsers(res.data)).catch(error => console.log(error))],
    run when the promise settles, on the state of that moment. *)
Definition usersSettled (p : Settled AxiosResponse) : M unit :=
  match p with
  | Fulfilled res => setUsers (data res)
  | Rejected error => emit (console_log error)
  end.

(** *** Lines 73-76.  [newDate] is [new Date(event.target.value)]. *)
Definition handleDateChange (newDate : Js.Date) : M unit :=
  setBirthDate newDate.

(** *** Lines 78-83 *)
Definition clearField : M unit :=
  setName "" ;;
  setEmpId Js.zero ;;
  now <- new_Date ;;
  setBirthDate now ;;
  setSelectedUser None.

(** *** Lines 85-94.  [r] is the render whose [selectedUser] the
    closure captured. *)
Definition onSubmit (r : State) (data : UserDataSchemaType) : M unit :=
  when (negb (truthy (selectedUser r)))
    (createUser data ;; ret tt) ;;
  match selectedUser r with
  | Some selected =>
      updateUser (User.id selected) (UpdateUserData.of_full data)
  | None => ret tt
  end ;;
  window_location_reload.

(** *** Lines 96-99 *)
Definition setSelectedRow (user : User.t) : M unit :=
  setSelectedUser (Some user) ;;
  reset (CreateUserData.mk (User.name user) (User.empId user)
           (User.birthDate user)).

(** *** Lines 108-117: the effect that depends on [selectedUser] *)
Definition selectedUserEffect (r : State) : M unit :=
  match selectedUser r with
  | Some selected =>
      setName (User.name selected) ;;
      setEmpId (User.empId selected) ;;
      setBirthDate (Js.Date_copy (User.birthDate selected))
  | None => ret tt
  end ;;
  when (negb (truthy (selectedUser r))) clearField.

(** *** Line 150: [handleSubmit(onSubmit)]

    The form library hands the values of the registered inputs to the
    resolver; it calls [onValid] with the parsed values when there is
    no error, and otherwise only records the errors. *)
Definition handleSubmit (onValid : UserDataSchemaType -> M unit)
    (values : CreateUserData.t) : M unit :=
  match Hookform.zodResolver userDataSchema values with
  | (Some parsed, _) => setErrors Hookform.no_errors ;; onValid parsed
  | (None, errs) => setErrors errs
  end.

(** *** Rendering

    After a handler has run, the component renders again and the effect
    of line 108 runs if [selectedUser] is not, by [Object.is], the value
    of the previous render.  The effect never changes [selectedUser] away
    from what its render had, so one pass is enough. *)
Definition commit (prev : State) : M unit :=
  fun s =>
    let r := state s in
    if Object_is (selectedUser prev) (selectedUser r)
    then (tt, s)
    else selectedUserEffect r s.

(** What the operator and the network can do to a mounted component.
    The inputs deliver the value already converted ([e.target.value],
    [Number(e.target.value)], [new Date(event.target.value)]).  A submission
    carries the values the form library holds.  How typing reaches them is
    left open (the [onChange] of lines 155, 162 and 169 takes the place of
    the library's own): any draft may be submitted in any state, and
    without typing the draft is the one last given to [reset].  The two
    buttons of lines 174-183 exist only while a user is selected. *)
Inductive Event : Type :=
| ListSettled (p : Settled AxiosResponse)
| ChangeName (value : string)
| ChangeEmpId (value : Js.number)
| ChangeBirthDate (value : Js.Date)
| ClickRow (user : User.t)
| Submit (values : CreateUserData.t)
| ClickDelete
| ClickClear.

Definition handler (r : State) (e : Event) : M unit :=
  match e with
  | ListSettled p => usersSettled p
  | ChangeName v => setName v
  | ChangeEmpId v => setEmpId v
  | ChangeBirthDate v => handleDateChange v
  | ClickRow user => setSelectedRow user
  | Submit values => handleSubmit (onSubmit r) values
  | ClickDelete =>
      match selectedUser r with
      | Some selected => deleteUser (User.id selected)
      | None => ret tt
      end
  | ClickClear =>
      when (truthy (selectedUser r)) clearField
  end.

Definition step (e : Event) : M unit :=
  fun s => let r := state s in (handler r e ;; commit r) s.

Fixpoint run (es : list Event) : M unit :=
  match es with
  | [] => ret tt
  | e :: rest => step e ;; run rest
  end.

(** The first render: lines 58, 69-72 give the initial values, and both
    effects run once. *)
Definition initial (s0 : World) : Sys :=
  let (now, s) :=
    new_Date {| state := {| users := []; name := "";
                            selectedUser := None; empId := Js.zero;
                            birthDate := Js.InvalidDate;
                            formValues := None;
                            errors := Hookform.no_errors |};
                world := s0 |} in
  exec (setBirthDate now) s.

Definition mount (s0 : World) : Sys :=
  let s := initial s0 in
  exec (getUsers ;; selectedUserEffect (state s)) s.

(** The list request has settled, the way the network decided. *)
Definition loaded (s0 : World) : Sys :=
  exec (step (ListSettled (network env (axios_get user_url))))
    (mount s0).

End WithEnv.

(** The two modes of the form. *)
Inductive Mode : Type := CREATE | EDIT.

Definition mode (s : State) : Mode :=
  if truthy (selectedUser s) then EDIT else CREATE.

(** The effects a program added to the trace. *)
Definition emitted_by (m : M unit) (s : Sys) : list Effect :=
  skipn (List.length (trace (world s))) (trace (world (exec m s))).

End App.

Import App.
Local Open Scope list_scope.
Local Open Scope js_scope.

(* ================================================================= *)
(** ** Vocabulary of the statements *)

(** The messages of lines 25 and 27. *)
Definition name_message : string := "１文字以上で入力してください".
Definition int_message : string := "整数値で入力してください".
Definition positive_message : string := "1以上で入力してください".

(** The messages the employee ID field can show. *)
Definition empId_message (m : string) : Prop :=
  m = Zod.default_nan_message \/ m = int_message \/ m = positive_message.

(** [s] with the effects [l] added to its trace. *)
Definition traced (l : list Effect) (s : Sys) : Sys :=
  {| state := state s;
     world := {| reads := reads (world s); trace := trace (world s) ++ l |} |}.

(** [s] with the errors of the form replaced. *)
Definition with_errors (e : Hookform.FieldErrors) (s : Sys) : Sys :=
  {| state := {| users := users (state s); name := name (state s);
                 selectedUser := selectedUser (state s);
                 empId := empId (state s); birthDate := birthDate (state s);
                 formValues := formValues (state s); errors := e |};
     world := world s |}.

(** Every request that changes the backend is followed by a reload. *)
Definition followed_by_reload (l : list Effect) : Prop :=
  forall pre e post,
    l = pre ++ e :: post -> is_mutation e = true -> In location_reload post.

Definition reloads (l : list Effect) : nat := List.length (filter is_reload l).

(** The check of [followed_by_reload] on a given trace. *)
Fixpoint followed_by_reloadb (l : list Effect) : bool :=
  match l with
  | [] => true
  | e :: post =>
      (if is_mutation e then existsb is_reload post else true)
      && followed_by_reloadb post
  end.

(** The operator typing into one of the three inputs. *)
Definition is_edit (e : Event) : bool :=
  match e with
  | ChangeName _ | ChangeEmpId _ | ChangeBirthDate _ => true
  | _ => false
  end.

(** The body of an update holds every field of the draft. *)
Definition carries (body : UpdateUserData.t) (values : CreateUserData.t)
  : Prop :=
  UpdateUserData.name body = Some (CreateUserData.name values)
  /\ UpdateUserData.empId body = Some (CreateUserData.empId values)
  /\ UpdateUserData.birthDate body = Some (CreateUserData.birthDate values).

(** The three field cells hold the values of the record. *)
Definition fields_of (u : User.t) (st : State) : Prop :=
  name st = User.name u
  /\ empId st = User.empId u
  /\ birthDate st = User.birthDate u.

(** The three field cells hold the defaults of lines 69-72. *)
Definition cleared (now : Js.Date) (st : State) : Prop :=
  name st = ""
  /\ empId st = Js.zero
  /\ birthDate st = now
  /\ selectedUser st = None
  /\ mode st = CREATE.

(** Selecting read on every state: after a click on a row of the table the
    three field cells hold that record's values and the form is in edit
    mode. *)
Definition select_always_populates : Prop :=
  forall (env : Env) (s : Sys) (u : User.t),
    In u (users (state s)) ->
    let s' := exec (step env (ClickRow u)) s in
    fields_of u (state s')
    /\ selectedUser (state s') = Some u
    /\ mode (state s') = EDIT.

(* ================================================================= *)
(** ** Sample data *)

Definition world0 : World := {| reads := 0; trace := [] |}.

(** The draft of the first scenario of the specification:
    [{name: "山田 太郎", empId: 11111, birthDate: 1990-01-01}]. *)
Definition yamada : CreateUserData.t :=
  CreateUserData.mk "山田 太郎" (Js.of_pos 11111) (Js.DateAt 631152000000).

(** A user with identifier 5, as the backend lists it. *)
Definition user5 : User.t :=
  User.mk 0 (Js.of_pos 5) "佐藤" (Js.of_pos 22222) (Js.DateAt 0).

(** A backend that lists [user5] and fails every other request. *)
Definition env0 : Env :=
  {| clock := fun k => (1700000000000 + Z.of_nat k)%Z;
     network := fun request =>
       match request with
       | axios_get _ => Fulfilled {| data := [user5] |}
       | _ => Rejected "Network Error"
       end |}.

(** A backend that cannot be reached. *)
Definition offline : Env :=
  {| clock := clock env0; network := fun _ => Rejected "Network Error" |}.

(** The list has arrived and holds [user5]. *)
Definition listed : Sys := loaded env0 world0.

(* ================================================================= *)
(** ** What the component shows (lines 33-36 and 119-186) *)

Module View.

(** A row of the table body (lines 139-143): whether it carries the class
    of the selected row, and its three cells. *)
Record Row : Type :=
  { highlighted : bool;
    cell_name : string;
    cell_empId : Js.number;
    cell_birthDate : string }.

(** The table and the form, as far as they depend on the state. *)
Record t : Type :=
  { rows : list Row;
    value_name : string;
    error_name : option string;
    value_empId : Js.number;
    error_empId : option string;
    value_birthDate : string;
    error_birthDate : option string;
    submit_label : string;
    edit_buttons : bool }.

Section WithFormats.

(** The two formatters are not code of the repository: [format(d,
    "yyyyMMdd")] of date-fns and the built-in [toISOString].  They are
    taken as given on a time value; on the invalid date both throw a
    RangeError, which is [None] here. *)
Variable format_yyyyMMdd : Z -> string.
Variable toISOString_of : Z -> string.

Definition format (d : Js.Date) : option string :=
  match d with
  | Js.InvalidDate => None
  | Js.DateAt ms => Some (format_yyyyMMdd ms)
  end.

Definition toISOString (d : Js.Date) : option string :=
  match d with
  | Js.InvalidDate => None
  | Js.DateAt ms => Some (toISOString_of ms)
  end.

(** Lines 33-36. *)
Definition formatDate (date : Js.Date) : option string :=
  let newDate := Js.Date_copy date in
  format newDate.

(** [errors.f?.message && <p>{errors.f.message}</p>]: a paragraph when
    there is an error whose message is not the empty string. *)
Definition shown (e : option Hookform.FieldError) : option string :=
  match e with
  | Some fe =>
      if String.eqb (Hookform.message fe) "" then None
      else Some (Hookform.message fe)
  | None => None
  end.

(** Lines 139-143; [selectedUser === user] is the identity of objects. *)
Definition row (st : State) (user : User.t) : option Row :=
  match formatDate (User.birthDate user) with
  | Some d =>
      Some {| highlighted := Object_is (selectedUser st) (Some user);
              cell_name := User.name user;
              cell_empId := User.empId user;
              cell_birthDate := d |}
  | None => None
  end.

(** [users.map(...)], stopping at the first row that throws. *)
Fixpoint map_rows (st : State) (us : list User.t) : option (list Row) :=
  match us with
  | [] => Some []
  | user :: rest =>
      match row st user with
      | None => None
      | Some r =>
          match map_rows st rest with
          | None => None
          | Some rs => Some (r :: rs)
          end
      end
  end.

(** The body of [App] from line 119 on; [None] when rendering throws. *)
Definition render (st : State) : option t :=
  match map_rows st (users st) with
  | None => None
  | Some rs =>
      match toISOString (birthDate st) with
      | None => None
      | Some iso =>
          Some {| rows := rs;
                  value_name := name st;
                  error_name := shown (Hookform.name (errors st));
                  value_empId := empId st;
                  error_empId := shown (Hookform.empId (errors st));
                  value_birthDate := String.substring 0 10 iso;
                  error_birthDate := shown (Hookform.birthDate (errors st));
                  submit_label :=
                    if truthy (selectedUser st) then "更新" else "作成";
                  edit_buttons := truthy (selectedUser st) |}
      end
  end.

End WithFormats.

End View.

(* ================================================================= *)
(** ** Vocabulary of the further statements *)

Definition is_get (e : Effect) : bool :=
  match e with axios_get _ => true | _ => false end.

(** What one event sends, logs or reloads, read off the handlers. *)
Definition effects_of (st : State) (e : Event) : list Effect :=
  match e with
  | ListSettled (Rejected error) => [console_log error]
  | Submit values =>
      match Hookform.zodResolver userDataSchema values with
      | (Some data, _) =>
          match selectedUser st with
          | None => [axios_post user_url data; location_reload]
          | Some u =>
              [axios_patch (user_id_url (User.id u))
                 (UpdateUserData.of_full data);
               location_reload; location_reload]
          end
      | (None, _) => []
      end
  | ClickDelete =>
      match selectedUser st with
      | Some u => [axios_delete (user_id_url (User.id u)); location_reload]
      | None => []
      end
  | _ => []
  end.

Definition is_list_settled (e : Event) : bool :=
  match e with ListSettled _ => true | _ => false end.

Definition date_ok (d : Js.Date) : bool := negb (Js.getTime_isNaN d).

Definition dates_ok (us : list User.t) : bool :=
  forallb (fun u => date_ok (User.birthDate u)) us.

(** The dates an event brings in are valid dates. *)
Definition event_ok (e : Event) : bool :=
  match e with
  | ListSettled (Fulfilled res) => dates_ok (data res)
  | ChangeBirthDate d => date_ok d
  | ClickRow user => date_ok (User.birthDate user)
  | _ => true
  end.

(** The dates the component holds are valid dates. *)
Definition holds_valid_dates (st : State) : Prop :=
  date_ok (birthDate st) = true /\ dates_ok (users st) = true.

(** The values of a record, as [setSelectedRow] gives them to [reset]. *)
Definition values_of (u : User.t) : CreateUserData.t :=
  CreateUserData.mk (User.name u) (User.empId u) (User.birthDate u).

(** Formatters for the examples. *)
Definition sample_format (ms : Z) : string := "19700101".
Definition sample_iso (ms : Z) : string := "1970-01-01T00:00:00.000Z".

(** Runs one step of the component on a state given field by field. *)
Ltac step_cbn :=
  unfold exec, step, bind; cbn [handler state];
  unfold handleSubmit, commit, bind; cbn.

(* ================================================================= *)
(** ** Numbers: what the two checks of [empId] decide *)

Section NumberFacts.

Lemma pow2_pos (k : Z) : (0 <= k -> 0 < 2 ^ k)%Z.
Proof. intros; apply Z.pow_pos_nonneg; lia. Qed.

(** [Number.isInteger] holds exactly of the values that are integers. *)
Lemma isInteger_denotes (x : Js.number) :
  Js.isInteger x = true <-> exists n, Js.denotes x n.
Proof.
  destruct x as [s | s | | s m e]; cbn.
  - split; [exists 0%Z; reflexivity | trivial].
  - split; [discriminate | intros [_ []]].
  - split; [discriminate | intros [_ []]].
  - destruct (Z.leb_spec 0 e) as [He | He].
    + split; [eexists; reflexivity | trivial].
    + assert (Hk : (0 < 2 ^ (- e))%Z) by (apply pow2_pos; lia).
      rewrite Z.eqb_eq. split.
      * intros Hm. apply Z.div_exact in Hm; [| lia].
        exists (cond_Zopp s (Z.pos m / 2 ^ (- e)))%Z.
        destruct s; cbn [cond_Zopp]; lia.
      * intros [n Hn]. destruct s; cbn [cond_Zopp] in Hn.
        -- replace (Z.pos m) with ((- n) * 2 ^ (- e))%Z by lia.
           apply Z.mod_mul; lia.
        -- rewrite Hn. apply Z.mod_mul; lia.
Qed.

(** [x <= 0] on a number that is not NaN. *)
Lemma le_zero_denotes (x : Js.number) (n : Z) :
  Js.denotes x n -> Js.le x Js.zero = (n <=? 0)%Z.
Proof.
  destruct x as [s | s | | s m e]; cbn; try contradiction.
  - intros ->. reflexivity.
  - unfold Js.le, SFleb; cbn.
    destruct (Z.leb_spec 0 e) as [He | He]; intros Hn.
    + assert (Hk : (0 < 2 ^ e)%Z) by (apply pow2_pos; lia).
      destruct s; cbn [cond_Zopp] in Hn; symmetry.
      * apply Z.leb_le. nia.
      * apply Z.leb_gt. nia.
    + assert (Hk : (0 < 2 ^ (- e))%Z) by (apply pow2_pos; lia).
      destruct s; cbn [cond_Zopp] in Hn; symmetry.
      * apply Z.leb_le. nia.
      * apply Z.leb_gt. nia.
Qed.

(** The schema's two checks pass exactly on the positive integers. *)
Lemma checks_pass_iff (x : Js.number) :
  Js.isNaN x = false /\ Js.isInteger x = true /\ Js.le x Js.zero = false
  <-> Js.positive_integer x.
Proof.
  split.
  - intros (_ & Hi & Hl). apply isInteger_denotes in Hi as [n Hn].
    exists n. split; [| exact Hn].
    rewrite (le_zero_denotes x n Hn) in Hl. apply Z.leb_gt in Hl. exact Hl.
  - intros (n & Hpos & Hn). repeat split.
    + destruct x; cbn in *; trivial; contradiction.
    + apply isInteger_denotes. exists n; exact Hn.
    + rewrite (le_zero_denotes x n Hn). apply Z.leb_gt. exact Hpos.
Qed.

Lemma of_pos_positive_integer (p : positive) :
  Js.positive_integer (Js.of_pos p).
Proof. exists (Z.pos p). split; [lia | cbn; lia]. Qed.

Lemma zero_not_positive_integer : ~ Js.positive_integer Js.zero.
Proof. intros (n & Hpos & Hn). cbn in Hn. lia. Qed.

End NumberFacts.

(* ================================================================= *)
(** ** The resolver on [userDataSchema] *)

Section ResolverFacts.

(** The issues of a draft, key by key. *)
Lemma issues_of_userDataSchema (v : CreateUserData.t) :
  Zod.issues_of userDataSchema v =
    (if Nat.ltb (Js.length (CreateUserData.name v)) 1
     then [Zod.issue Zod.too_small Zod.p_name name_message] else [])
    ++ (if Js.isNaN (CreateUserData.empId v)
        then [Zod.issue Zod.invalid_type Zod.p_empId Zod.default_nan_message]
        else
          (if negb (Js.isInteger (CreateUserData.empId v))
           then [Zod.issue Zod.invalid_type Zod.p_empId int_message] else [])
          ++ (if Js.le (CreateUserData.empId v) Js.zero
              then [Zod.issue Zod.too_small Zod.p_empId positive_message]
              else []))
    ++ (if Js.getTime_isNaN (CreateUserData.birthDate v)
        then [Zod.issue Zod.invalid_date Zod.p_birthDate
                Zod.default_invalid_date_message]
        else []).
Proof.
  unfold Zod.issues_of, Zod.parse_string, Zod.parse_number, Zod.parse_date.
  cbn [userDataSchema Zod.shape_name Zod.shape_empId Zod.shape_birthDate
       Zod.min Zod.int Zod.positive Zod.string_ Zod.number_ Zod.s_checks
       Zod.n_checks app flat_map Zod.run_string_check Zod.run_number_check].
  rewrite !app_nil_r. reflexivity.
Qed.

Lemma length_zero_iff (s : string) : Nat.ltb (Js.length s) 1 = true <-> s = "".
Proof.
  destruct s; cbn; split; trivial; discriminate.
Qed.

(** A draft that satisfies the three rules is handed on unchanged. *)
Lemma resolver_accepts (v : CreateUserData.t) :
  CreateUserData.name v <> "" ->
  Js.positive_integer (CreateUserData.empId v) ->
  Js.valid_date (CreateUserData.birthDate v) ->
  Hookform.zodResolver userDataSchema v = (Some v, Hookform.no_errors).
Proof.
  intros Hname Hemp [ms Hdate].
  apply checks_pass_iff in Hemp as (Hnan & Hint & Hle).
  unfold Hookform.zodResolver, Zod.safeParse.
  rewrite issues_of_userDataSchema, Hnan, Hint, Hle, Hdate.
  destruct (Nat.ltb (Js.length (CreateUserData.name v)) 1) eqn:Hl.
  - apply length_zero_iff in Hl. contradiction.
  - destruct v; cbn in *. subst. reflexivity.
Qed.

(** An empty name is refused, and the error of the name field is the
    minimum-length message of the schema. *)
Lemma resolver_rejects_empty_name (v : CreateUserData.t) :
  CreateUserData.name v = "" ->
  exists errs,
    Hookform.zodResolver userDataSchema v = (None, errs)
    /\ Hookform.name errs
       = Some {| Hookform.type := Zod.too_small;
                 Hookform.message := name_message |}.
Proof.
  intros Hname.
  unfold Hookform.zodResolver, Zod.safeParse.
  rewrite issues_of_userDataSchema, Hname. cbn [Js.length String.length Nat.ltb Nat.leb].
  destruct (Js.isNaN (CreateUserData.empId v));
    destruct (Js.isInteger (CreateUserData.empId v));
    destruct (Js.le (CreateUserData.empId v) Js.zero);
    destruct (Js.getTime_isNaN (CreateUserData.birthDate v));
    cbn; eexists; split; reflexivity.
Qed.

(** An employee ID that is not a positive integer is refused, with an
    error on that field. *)
Lemma resolver_rejects_empId (v : CreateUserData.t) :
  ~ Js.positive_integer (CreateUserData.empId v) ->
  exists errs e,
    Hookform.zodResolver userDataSchema v = (None, errs)
    /\ Hookform.empId errs = Some e
    /\ empId_message (Hookform.message e).
Proof.
  intros Hbad.
  unfold Hookform.zodResolver, Zod.safeParse, empId_message.
  rewrite issues_of_userDataSchema.
  destruct (Js.isNaN (CreateUserData.empId v)) eqn:Hnan;
    destruct (Js.isInteger (CreateUserData.empId v)) eqn:Hint;
    destruct (Js.le (CreateUserData.empId v) Js.zero) eqn:Hle;
    try (exfalso; apply Hbad, checks_pass_iff; auto; fail);
    destruct (Nat.ltb (Js.length (CreateUserData.name v)) 1);
    destruct (Js.getTime_isNaN (CreateUserData.birthDate v));
    cbn; do 2 eexists; (split; [reflexivity |]); (split; [reflexivity |]);
    cbn; auto.
Qed.

(** What the resolver accepts it returns as it was. *)
Lemma resolver_returns_draft (v parsed : CreateUserData.t)
    (errs : Hookform.FieldErrors) :
  Hookform.zodResolver userDataSchema v = (Some parsed, errs) ->
  parsed = v /\ errs = Hookform.no_errors.
Proof.
  unfold Hookform.zodResolver, Zod.safeParse.
  destruct (Zod.issues_of userDataSchema v); [| discriminate].
  intros [= <- <-]. destruct v; split; reflexivity.
Qed.

End ResolverFacts.

(* ================================================================= *)
(** ** What the handlers do to the state and to the trace *)

Section HandlerFacts.

Variable env : Env.

Lemma Object_is_refl (u : option User.t) : Object_is u u = true.
Proof. destruct u; cbn; [apply Nat.eqb_refl | reflexivity]. Qed.

Lemma emitted_by_traced (m : M unit) (s : Sys) (l : list Effect) :
  trace (world (exec m s)) = trace (world s) ++ l -> emitted_by m s = l.
Proof.
  unfold emitted_by. intros ->.
  rewrite skipn_app, skipn_all, Nat.sub_diag. reflexivity.
Qed.

Lemma traced_nil (s : Sys) : traced [] s = s.
Proof.
  destruct s as [st [r t]]. unfold traced; cbn. rewrite app_nil_r.
  reflexivity.
Qed.

Lemma exec_createUser data s :
  exec (createUser env data) s = traced [axios_post user_url data] s.
Proof. reflexivity. Qed.

Lemma exec_deleteUser id s :
  exec (deleteUser env id) s
  = traced [axios_delete (user_id_url id); location_reload] s.
Proof.
  destruct s as [st [r t]]. unfold traced; cbn. rewrite <- app_assoc.
  reflexivity.
Qed.

Lemma exec_updateUser id data s :
  exec (updateUser env id data) s
  = traced [axios_patch (user_id_url id) data; location_reload] s.
Proof.
  destruct s as [st [r t]]. unfold traced; cbn. rewrite <- app_assoc.
  reflexivity.
Qed.

Lemma exec_onSubmit_create r data s :
  selectedUser r = None ->
  exec (onSubmit env r data) s
  = traced [axios_post user_url data; location_reload] s.
Proof.
  intros Hsel. destruct s as [st [n t]].
  unfold onSubmit, traced, exec. rewrite Hsel. cbn.
  rewrite <- app_assoc. reflexivity.
Qed.

Lemma exec_onSubmit_update r data s u :
  selectedUser r = Some u ->
  exec (onSubmit env r data) s
  = traced [axios_patch (user_id_url (User.id u)) (UpdateUserData.of_full data);
            location_reload; location_reload] s.
Proof.
  intros Hsel. destruct s as [st [n t]].
  unfold onSubmit, traced, exec. rewrite Hsel. cbn.
  rewrite <- !app_assoc. reflexivity.
Qed.

(** A render in which [selectedUser] is the value of the previous one
    runs no effect. *)
Lemma commit_same prev s :
  selectedUser (state s) = selectedUser prev -> commit env prev s = (tt, s).
Proof.
  intros H. unfold commit. rewrite H, Object_is_refl. reflexivity.
Qed.

(** The effect of line 108 leaves [selectedUser] as the render had it,
    so the render that follows it runs no further effect. *)
Lemma selectedUserEffect_stable s :
  Object_is (selectedUser (state s))
    (selectedUser (state (exec (selectedUserEffect env (state s)) s)))
  = true.
Proof.
  destruct s as [[us nm [u |] em bd fv er] [n t]]; cbn.
  - apply Nat.eqb_refl.
  - reflexivity.
Qed.

(** Submitting a draft the resolver accepts. *)
Lemma exec_submit_valid values s :
  Hookform.zodResolver userDataSchema values
  = (Some values, Hookform.no_errors) ->
  exec (step env (Submit values)) s
  = exec (onSubmit env (state s) values) (with_errors Hookform.no_errors s).
Proof.
  intros Hres. unfold step, exec, bind. cbn [handler].
  unfold handleSubmit. rewrite Hres.
  destruct s as [[us nm sel em bd fv er] [n t]].
  destruct sel as [u |]; cbn; unfold commit; cbn;
    rewrite ?Nat.eqb_refl; reflexivity.
Qed.

(** Submitting a draft the resolver refuses. *)
Lemma exec_submit_invalid values errs s :
  Hookform.zodResolver userDataSchema values = (None, errs) ->
  exec (step env (Submit values)) s = with_errors errs s.
Proof.
  intros Hres. unfold step, exec, bind. cbn [handler].
  unfold handleSubmit. rewrite Hres.
  destruct s as [[us nm sel em bd fv er] [n t]].
  destruct sel as [u |]; cbn; unfold commit; cbn;
    rewrite ?Nat.eqb_refl; reflexivity.
Qed.

End HandlerFacts.

(* ================================================================= *)
(** ** Validation and submission *)

(** C1. For every draft whose name is non-empty, whose employee ID is a
    positive integer and whose birth date is a valid date, submitting the
    form sends exactly one request that changes the backend: the POST of
    the draft when no user is selected, the PATCH of the draft to the
    selected user's identifier when one is. *)
Theorem submit_valid_one_mutation (env : Env) (s : Sys)
    (values : CreateUserData.t) :
  CreateUserData.name values <> "" ->
  Js.positive_integer (CreateUserData.empId values) ->
  Js.valid_date (CreateUserData.birthDate values) ->
  let sent := filter is_mutation (emitted_by (step env (Submit values)) s) in
  List.length sent = 1
  /\ sent = match selectedUser (state s) with
            | None => [axios_post user_url values]
            | Some u => [axios_patch (user_id_url (User.id u))
                           (UpdateUserData.of_full values)]
            end.
Proof.
  intros Hname Hemp Hdate sent. subst sent.
  pose proof (resolver_accepts values Hname Hemp Hdate) as Hres.
  destruct (selectedUser (state s)) as [u |] eqn:Hsel.
  - rewrite (emitted_by_traced (step env (Submit values)) s
               [axios_patch (user_id_url (User.id u))
                  (UpdateUserData.of_full values);
                location_reload; location_reload]).
    + split; reflexivity.
    + rewrite (exec_submit_valid env values s Hres).
      rewrite (exec_onSubmit_update env (state s) values _ u Hsel).
      reflexivity.
  - rewrite (emitted_by_traced (step env (Submit values)) s
               [axios_post user_url values; location_reload]).
    + split; reflexivity.
    + rewrite (exec_submit_valid env values s Hres).
      rewrite (exec_onSubmit_create env (state s) values _ Hsel).
      reflexivity.
Qed.

Lemma submit_valid_one_mutation_witness :
  let sent := filter is_mutation (emitted_by (step env0 (Submit yamada)) listed) in
  List.length sent = 1 /\ sent = [axios_post user_url yamada].
Proof.
  apply (submit_valid_one_mutation env0 listed yamada).
  - discriminate.
  - apply of_pos_positive_integer.
  - exists 631152000000%Z. reflexivity.
Defined.

(** C3. For every draft whose name is the empty string, submission is
    refused: the name field gets the minimum-length message of the schema,
    and no request is sent (the trace is what it was). *)
Theorem submit_empty_name_rejected (env : Env) (s : Sys)
    (values : CreateUserData.t) :
  CreateUserData.name values = "" ->
  let s' := exec (step env (Submit values)) s in
  Hookform.name (errors (state s'))
  = Some {| Hookform.type := Zod.too_small;
            Hookform.message := "１文字以上で入力してください" |}
  /\ trace (world s') = trace (world s)
  /\ emitted_by (step env (Submit values)) s = [].
Proof.
  intros Hname s'.
  destruct (resolver_rejects_empty_name values Hname) as (errs & Hres & Herr).
  assert (Hs' : s' = with_errors errs s)
    by (apply exec_submit_invalid; exact Hres).
  split; [| split].
  - rewrite Hs'. exact Herr.
  - rewrite Hs'. reflexivity.
  - apply emitted_by_traced. fold s'. rewrite Hs'. cbn.
    rewrite app_nil_r. reflexivity.
Qed.

Lemma submit_empty_name_rejected_witness :
  let values := CreateUserData.mk "" (Js.of_pos 11111) (Js.DateAt 0) in
  let s' := exec (step env0 (Submit values)) listed in
  Hookform.name (errors (state s'))
  = Some {| Hookform.type := Zod.too_small;
            Hookform.message := "１文字以上で入力してください" |}
  /\ trace (world s') = trace (world listed)
  /\ emitted_by (step env0 (Submit values)) listed = [].
Proof.
  apply (submit_empty_name_rejected env0 listed
           (CreateUserData.mk "" (Js.of_pos 11111) (Js.DateAt 0))).
  reflexivity.
Defined.

(** C4. For every draft whose employee ID is not a positive integer (zero,
    negative, fractional, infinite or NaN), submission is refused: the
    employee ID field gets a message, and no request is sent (the trace is
    what it was). *)
Theorem submit_bad_empId_rejected (env : Env) (s : Sys)
    (values : CreateUserData.t) :
  ~ Js.positive_integer (CreateUserData.empId values) ->
  let s' := exec (step env (Submit values)) s in
  (exists e, Hookform.empId (errors (state s')) = Some e
             /\ empId_message (Hookform.message e))
  /\ trace (world s') = trace (world s)
  /\ emitted_by (step env (Submit values)) s = [].
Proof.
  intros Hbad s'.
  destruct (resolver_rejects_empId values Hbad) as (errs & e & Hres & He & Hm).
  assert (Hs' : s' = with_errors errs s)
    by (apply exec_submit_invalid; exact Hres).
  split; [| split].
  - exists e. rewrite Hs'. split; assumption.
  - rewrite Hs'. reflexivity.
  - apply emitted_by_traced. fold s'. rewrite Hs'. cbn.
    rewrite app_nil_r. reflexivity.
Qed.

Lemma submit_bad_empId_rejected_witness :
  let values :=
    CreateUserData.mk "山田 太郎" (S754_finite true 3 (-1)) (Js.DateAt 0) in
  let s' := exec (step env0 (Submit values)) listed in
  (exists e, Hookform.empId (errors (state s')) = Some e
             /\ empId_message (Hookform.message e))
  /\ trace (world s') = trace (world listed)
  /\ emitted_by (step env0 (Submit values)) listed = [].
Proof.
  apply (submit_bad_empId_rejected env0 listed
           (CreateUserData.mk "山田 太郎" (S754_finite true 3 (-1))
              (Js.DateAt 0))).
  intros (n & Hpos & Hn). cbn in Hn. lia.
Defined.

(* ================================================================= *)
(** ** Selection *)

Section SelectionFacts.

Variable env : Env.

Lemma edit_keeps_selection (e : Event) (s : Sys) :
  is_edit e = true ->
  selectedUser (state (exec (step env e) s)) = selectedUser (state s).
Proof.
  destruct s as [[us nm sel em bd fv er] [n t]].
  destruct e; try discriminate; intros _; destruct sel; step_cbn;
    rewrite ?Nat.eqb_refl; reflexivity.
Qed.

Lemma run_cons (e : Event) (es : list Event) (s : Sys) :
  exec (run env (e :: es)) s = exec (run env es) (exec (step env e) s).
Proof.
  unfold exec. cbn [run]. unfold bind.
  destruct (step env e s) as [[] s1]. reflexivity.
Qed.

Lemma edits_keep_selection (es : list Event) :
  forallb is_edit es = true ->
  forall s,
    selectedUser (state (exec (run env es) s)) = selectedUser (state s).
Proof.
  induction es as [| e es IH]; intros Hes s.
  - reflexivity.
  - cbn in Hes. apply andb_true_iff in Hes as [He Hes].
    rewrite run_cons, IH by exact Hes.
    apply edit_keeps_selection. exact He.
Qed.

Lemma clickRow_selects (u : User.t) (s : Sys) :
  selectedUser (state (exec (step env (ClickRow u)) s)) = Some u.
Proof.
  destruct s as [[us nm sel em bd fv er] [n t]].
  step_cbn. destruct (Object_is sel (Some u)); reflexivity.
Qed.

Lemma clickRow_silent (u : User.t) (s : Sys) :
  emitted_by (step env (ClickRow u)) s = [].
Proof.
  destruct s as [[us nm sel em bd fv er] [n t]].
  unfold emitted_by. step_cbn.
  destruct (Object_is sel (Some u)); cbn; apply skipn_all.
Qed.

End SelectionFacts.

(** C2. Once a row has been selected, and whatever the operator then types
    into the inputs, submitting a draft that passes validation sends one
    request: the PATCH addressed to the identifier of the selected record,
    whose body holds every field of the draft, the changed ones among
    them. *)
Theorem submit_selected_sends_patch (env : Env) (s : Sys) (u : User.t)
    (edits : list Event) (values : CreateUserData.t) :
  forallb is_edit edits = true ->
  CreateUserData.name values <> "" ->
  Js.positive_integer (CreateUserData.empId values) ->
  Js.valid_date (CreateUserData.birthDate values) ->
  let editing := exec (run env (ClickRow u :: edits)) s in
  exists body,
    filter is_request (emitted_by (step env (Submit values)) editing)
    = [axios_patch (user_id_url (User.id u)) body]
    /\ carries body values.
Proof.
  intros Hedits Hname Hemp Hdate editing.
  assert (Hsel : selectedUser (state editing) = Some u).
  { subst editing. rewrite run_cons, edits_keep_selection by exact Hedits.
    apply clickRow_selects. }
  pose proof (resolver_accepts values Hname Hemp Hdate) as Hres.
  exists (UpdateUserData.of_full values). split.
  - rewrite (emitted_by_traced (step env (Submit values)) editing
               [axios_patch (user_id_url (User.id u))
                  (UpdateUserData.of_full values);
                location_reload; location_reload]).
    + reflexivity.
    + rewrite (exec_submit_valid env values editing Hres).
      rewrite (exec_onSubmit_update env (state editing) values _ u Hsel).
      reflexivity.
  - repeat split.
Qed.

(** The second scenario of the specification: the user with identifier 5
    is selected, the name is changed to "鈴木", the form is submitted. *)
Lemma submit_selected_sends_patch_witness :
  let values :=
    CreateUserData.mk "鈴木" (User.empId user5) (User.birthDate user5) in
  let editing := exec (run env0 [ClickRow user5; ChangeName "鈴木"]) listed in
  exists body,
    filter is_request (emitted_by (step env0 (Submit values)) editing)
    = [axios_patch (user_id_url (Js.of_pos 5)) body]
    /\ carries body values.
Proof.
  apply (submit_selected_sends_patch env0 listed user5 [ChangeName "鈴木"]
           (CreateUserData.mk "鈴木" (User.empId user5)
              (User.birthDate user5))).
  - reflexivity.
  - discriminate.
  - apply of_pos_positive_integer.
  - exists 0%Z. reflexivity.
Defined.

(** C5, as the code has it. Clicking a row always makes that user the
    selected one (edit mode, the target of the next submission) and gives
    the form library exactly that record's values; the three field cells
    take the record's values whenever the row is not the object that is
    already selected. *)
Theorem select_row_populates (env : Env) (s : Sys) (u : User.t) :
  let s' := exec (step env (ClickRow u)) s in
  selectedUser (state s') = Some u
  /\ mode (state s') = EDIT
  /\ formValues (state s')
     = Some (CreateUserData.mk (User.name u) (User.empId u) (User.birthDate u))
  /\ emitted_by (step env (ClickRow u)) s = []
  /\ (Object_is (selectedUser (state s)) (Some u) = false ->
      fields_of u (state s')).
Proof.
  destruct s as [[us nm sel em bd fv er] [n t]].
  unfold emitted_by. step_cbn.
  destruct (Object_is sel (Some u)) eqn:His; cbn;
    rewrite skipn_all; repeat split; try discriminate.
Qed.

Lemma select_row_populates_witness :
  fields_of user5 (state (exec (step env0 (ClickRow user5)) listed)).
Proof.
  apply (select_row_populates env0 listed user5). reflexivity.
Defined.

(** It fails when the row is clicked again after the operator has typed:
    [selectedUser] is the same object, the effect of line 108 does not
    run, and the name cell keeps what was typed. *)
Lemma select_row_again_keeps_edits : ~ select_always_populates.
Proof.
  intros H.
  specialize (H env0
                (exec (run env0 [ClickRow user5; ChangeName "鈴木"]) listed)
                user5 (or_introl eq_refl)).
  destruct H as ((Hname & _) & _). cbv in Hname. discriminate Hname.
Qed.

(** C6. From any state, [clearField] sets the name to the empty string, the
    employee ID to 0 and the birth date to the current time, clears the
    selected user and so returns the form to create mode; it sends nothing.
    The same holds once the click on the button of line 179, which exists
    while a user is selected, has been handled and rendered. *)
Theorem clear_resets_form (env : Env) (s : Sys) :
  (let s' := exec (clearField env) s in
   cleared (Js.DateAt (clock env (reads (world s)))) (state s')
   /\ trace (world s') = trace (world s))
  /\ (truthy (selectedUser (state s)) = true ->
      let s' := exec (step env ClickClear) s in
      cleared (Js.DateAt (clock env (S (reads (world s))))) (state s')
      /\ trace (world s') = trace (world s)).
Proof.
  destruct s as [[us nm sel em bd fv er] [n t]]. split.
  - cbn. repeat split.
  - intros Hsel. destruct sel as [u |]; [| discriminate Hsel].
    step_cbn. repeat split.
Qed.

Lemma clear_resets_form_witness :
  let editing := exec (run env0 [ClickRow user5; ChangeName "鈴木"]) listed in
  let s' := exec (step env0 ClickClear) editing in
  cleared (Js.DateAt (clock env0 (S (reads (world editing))))) (state s')
  /\ trace (world s') = trace (world editing).
Proof.
  apply (clear_resets_form env0
           (exec (run env0 [ClickRow user5; ChangeName "鈴木"]) listed)).
  reflexivity.
Defined.

(* ================================================================= *)
(** ** The list request *)

(** C7. When the list request is rejected, the continuation only logs the
    error: every state cell, the list of users among them, is what it was,
    and the log entry is the only thing done (no second request).  On
    mount this leaves the list empty, after one GET. *)
Theorem list_failure_only_logged (env : Env) (s : Sys) (error : Js.Error) :
  (let s' := exec (step env (ListSettled (Rejected error))) s in
   state s' = state s
   /\ users (state s') = users (state s)
   /\ emitted_by (step env (ListSettled (Rejected error))) s
      = [console_log error])
  /\ (network env (axios_get user_url) = Rejected error ->
      forall w : World,
        users (state (loaded env w)) = []
        /\ errors (state (loaded env w)) = Hookform.no_errors
        /\ trace (world (loaded env w))
           = trace w ++ [axios_get user_url; console_log error]).
Proof.
  split.
  - destruct s as [[us nm sel em bd fv er] [n t]].
    unfold emitted_by. step_cbn. destruct sel; cbn; rewrite ?Nat.eqb_refl; cbn;
      (repeat split;
       rewrite skipn_app, skipn_all, Nat.sub_diag; reflexivity).
  - intros Hnet [n t]. unfold loaded. rewrite Hnet.
    unfold mount, initial. step_cbn. rewrite <- app_assoc. repeat split.
Qed.

Lemma list_failure_only_logged_witness :
  users (state (loaded offline world0)) = []
  /\ errors (state (loaded offline world0)) = Hookform.no_errors
  /\ trace (world (loaded offline world0))
     = [axios_get user_url; console_log "Network Error"].
Proof.
  apply (list_failure_only_logged offline (mount offline world0)
           "Network Error").
  reflexivity.
Defined.

(* ================================================================= *)
(** ** Reloads *)

Section ReloadFacts.

Lemma is_reload_In (l : list Effect) :
  existsb is_reload l = true -> In location_reload l.
Proof.
  intros H. apply existsb_exists in H as (x & Hin & Hx).
  destruct x; try discriminate. exact Hin.
Qed.

Lemma followed_by_reloadb_sound (l : list Effect) :
  followed_by_reloadb l = true -> followed_by_reload l.
Proof.
  induction l as [| a l IH]; intros Hb pre e post Heq Hmut.
  - destruct pre; discriminate Heq.
  - cbn in Hb. apply andb_true_iff in Hb as [Ha Hl].
    destruct pre as [| b pre]; cbn in Heq; injection Heq as -> ->.
    + rewrite Hmut in Ha. apply is_reload_In. exact Ha.
    + apply (IH Hl pre e post eq_refl Hmut).
Qed.

End ReloadFacts.

(** Every step keeps the rule of [followed_by_reload]. *)
Lemma step_followed_by_reload (env : Env) (s : Sys) (e : Event) :
  followed_by_reload (emitted_by (step env e) s).
Proof.
  apply followed_by_reloadb_sound.
  destruct e as [p | v | v | v | u | values | |].
  - destruct s as [[us nm sel em bd fv er] [n t]], p as [res | err];
      unfold emitted_by; step_cbn; destruct sel; cbn;
      rewrite ?Nat.eqb_refl; cbn;
      rewrite ?skipn_app, ?skipn_all, ?Nat.sub_diag; reflexivity.
  - destruct s as [[us nm sel em bd fv er] [n t]];
      unfold emitted_by; step_cbn; destruct sel; cbn;
      rewrite ?Nat.eqb_refl; cbn; rewrite skipn_all; reflexivity.
  - destruct s as [[us nm sel em bd fv er] [n t]];
      unfold emitted_by; step_cbn; destruct sel; cbn;
      rewrite ?Nat.eqb_refl; cbn; rewrite skipn_all; reflexivity.
  - destruct s as [[us nm sel em bd fv er] [n t]];
      unfold emitted_by; step_cbn; destruct sel; cbn;
      rewrite ?Nat.eqb_refl; cbn; rewrite skipn_all; reflexivity.
  - rewrite (clickRow_silent env u s). reflexivity.
  - destruct (Hookform.zodResolver userDataSchema values)
      as [[parsed |] errs] eqn:Hres.
    + destruct (resolver_returns_draft values parsed errs Hres) as [-> ->].
      destruct (selectedUser (state s)) as [u |] eqn:Hsel.
      * rewrite (emitted_by_traced (step env (Submit values)) s
                   [axios_patch (user_id_url (User.id u))
                      (UpdateUserData.of_full values);
                    location_reload; location_reload]); [reflexivity |].
        rewrite (exec_submit_valid env values s Hres).
        rewrite (exec_onSubmit_update env (state s) values _ u Hsel).
        reflexivity.
      * rewrite (emitted_by_traced (step env (Submit values)) s
                   [axios_post user_url values; location_reload]);
          [reflexivity |].
        rewrite (exec_submit_valid env values s Hres).
        rewrite (exec_onSubmit_create env (state s) values _ Hsel).
        reflexivity.
    + rewrite (emitted_by_traced (step env (Submit values)) s []);
        [reflexivity |].
      rewrite (exec_submit_invalid env values errs s Hres). cbn.
      rewrite app_nil_r. reflexivity.
  - destruct s as [[us nm sel em bd fv er] [n t]];
      unfold emitted_by; step_cbn; destruct sel; cbn;
      rewrite ?Nat.eqb_refl; cbn; rewrite <- ?app_assoc;
      rewrite ?skipn_app, ?skipn_all, ?Nat.sub_diag; reflexivity.
  - destruct s as [[us nm sel em bd fv er] [n t]];
      unfold emitted_by; step_cbn; destruct sel; cbn;
      rewrite ?skipn_all; reflexivity.
Qed.

(** C8. Whatever the clock shows and however the requests settle: an
    accepted submission sends its POST or PATCH and then calls
    [window.location.reload], [deleteUser] sends its DELETE and then calls
    it, and in every step of the component each request that changes the
    backend is followed by such a call. *)
Theorem mutation_followed_by_reload (clock : nat -> Z)
    (network : Effect -> Settled AxiosResponse) (s : Sys) :
  let env := {| clock := clock; network := network |} in
  (forall (r : State) (data : UserDataSchemaType),
     emitted_by (onSubmit env r data) s
     = match selectedUser r with
       | None => [axios_post user_url data; location_reload]
       | Some u => [axios_patch (user_id_url (User.id u))
                      (UpdateUserData.of_full data);
                    location_reload; location_reload]
       end)
  /\ (forall id : Js.number,
        emitted_by (deleteUser env id) s
        = [axios_delete (user_id_url id); location_reload])
  /\ (forall e : Event, followed_by_reload (emitted_by (step env e) s)).
Proof.
  intros env. split; [| split].
  - intros r data. apply emitted_by_traced.
    destruct (selectedUser r) as [u |] eqn:Hsel.
    + rewrite (exec_onSubmit_update env r data s u Hsel). reflexivity.
    + rewrite (exec_onSubmit_create env r data s Hsel). reflexivity.
  - intros id. apply emitted_by_traced. rewrite exec_deleteUser. reflexivity.
  - intros e. apply step_followed_by_reload.
Qed.

(** C9. A submission in edit mode calls [window.location.reload] twice:
    once in [updateUser] and once at the end of [onSubmit].  A submission
    in create mode calls it once, and so does [deleteUser]. *)
Theorem reload_counts (env : Env) (r : State) (s : Sys)
    (data : UserDataSchemaType) :
  (forall u, selectedUser r = Some u ->
     let inner :=
       emitted_by (updateUser env (User.id u) (UpdateUserData.of_full data)) s in
     reloads inner = 1
     /\ emitted_by (onSubmit env r data) s = inner ++ [location_reload]
     /\ reloads (emitted_by (onSubmit env r data) s) = 2)
  /\ (selectedUser r = None ->
      reloads (emitted_by (onSubmit env r data) s) = 1)
  /\ (forall id, reloads (emitted_by (deleteUser env id) s) = 1).
Proof.
  split; [| split].
  - intros u Hsel inner. subst inner.
    rewrite (emitted_by_traced (updateUser env (User.id u)
                                  (UpdateUserData.of_full data)) s
               [axios_patch (user_id_url (User.id u))
                  (UpdateUserData.of_full data); location_reload])
      by (rewrite exec_updateUser; reflexivity).
    rewrite (emitted_by_traced (onSubmit env r data) s
               [axios_patch (user_id_url (User.id u))
                  (UpdateUserData.of_full data);
                location_reload; location_reload])
      by (rewrite (exec_onSubmit_update env r data s u Hsel); reflexivity).
    repeat split.
  - intros Hsel.
    rewrite (emitted_by_traced (onSubmit env r data) s
               [axios_post user_url data; location_reload])
      by (rewrite (exec_onSubmit_create env r data s Hsel); reflexivity).
    reflexivity.
  - intros id.
    rewrite (emitted_by_traced (deleteUser env id) s
               [axios_delete (user_id_url id); location_reload])
      by (rewrite exec_deleteUser; reflexivity).
    reflexivity.
Qed.

Lemma reload_counts_witness :
  let editing := exec (step env0 (ClickRow user5)) listed in
  reloads (emitted_by (onSubmit env0 (state editing) yamada) editing) = 2
  /\ reloads (emitted_by (onSubmit env0 (state listed) yamada) listed) = 1.
Proof.
  split.
  - apply (reload_counts env0
             (state (exec (step env0 (ClickRow user5)) listed))
             (exec (step env0 (ClickRow user5)) listed) yamada)
      with (u := user5).
    reflexivity.
  - exact (proj1 (proj2 (reload_counts env0 (state listed) listed yamada))
             eq_refl).
Defined.

(* ================================================================= *)
(** ** The scenarios of the specification, run *)

Example listed_state :
  users (state listed) = [user5]
  /\ selectedUser (state listed) = None
  /\ name (state listed) = ""
  /\ empId (state listed) = Js.zero
  /\ trace (world listed) = [axios_get user_url].
Proof. repeat split. Qed.

(** No selection, the draft of [yamada]: one POST with that payload. *)
Example scenario_create :
  emitted_by (step env0 (Submit yamada)) listed
  = [axios_post user_url yamada; location_reload].
Proof. reflexivity. Qed.

(** [user5] selected, then the delete button: one DELETE for identifier 5. *)
Example scenario_delete :
  emitted_by (step env0 ClickDelete) (exec (step env0 (ClickRow user5)) listed)
  = [axios_delete (user_id_url (Js.of_pos 5)); location_reload].
Proof. reflexivity. Qed.

(** 1.5 is not an integer, -2 is not positive, 3 is both. *)
Example checks_on_samples :
  Js.isInteger (S754_finite false 3 (-1)) = false
  /\ Js.le (S754_finite true 2 0) Js.zero = true
  /\ Js.isInteger (Js.of_pos 3) = true
  /\ Js.le (Js.of_pos 3) Js.zero = false.
Proof. repeat split. Qed.

(** An empty number input reads as NaN: the field shows the library's
    message for a value that is not a number. *)
Example scenario_nan :
  Hookform.empId
    (errors (state (exec (step env0
                            (Submit (CreateUserData.mk "山田 太郎" Js.NaN
                                       (Js.DateAt 0))))
                      listed)))
  = Some {| Hookform.type := Zod.invalid_type;
            Hookform.message := Zod.default_nan_message |}.
Proof. reflexivity. Qed.

(** -1.5 fails both checks of the employee ID; the field shows the first
    message, the one of [int]. *)
Example scenario_negative_fraction :
  Hookform.empId
    (errors (state (exec (step env0
                            (Submit (CreateUserData.mk "山田 太郎"
                                       (S754_finite true 3 (-1))
                                       (Js.DateAt 0))))
                      listed)))
  = Some {| Hookform.type := Zod.invalid_type;
            Hookform.message := int_message |}.
Proof. reflexivity. Qed.

(* ================================================================= *)
(** ** Every event: what it emits, what it leaves alone *)

Section StepFacts.

Variable env : Env.

Lemma submit_emits (values : CreateUserData.t) (s : Sys) :
  emitted_by (step env (Submit values)) s
  = effects_of (state s) (Submit values).
Proof.
  cbn [effects_of].
  destruct (Hookform.zodResolver userDataSchema values)
    as [[parsed |] errs] eqn:Hres.
  - destruct (resolver_returns_draft values parsed errs Hres) as [-> ->].
    apply emitted_by_traced. rewrite (exec_submit_valid env values s Hres).
    destruct (selectedUser (state s)) as [u |] eqn:Hsel.
    + rewrite (exec_onSubmit_update env (state s) values _ u Hsel).
      reflexivity.
    + rewrite (exec_onSubmit_create env (state s) values _ Hsel).
      reflexivity.
  - apply emitted_by_traced.
    rewrite (exec_submit_invalid env values errs s Hres). cbn.
    rewrite app_nil_r. reflexivity.
Qed.

Lemma submit_keeps_cells (values : CreateUserData.t) (s : Sys) :
  let st' := state (exec (step env (Submit values)) s) in
  users st' = users (state s)
  /\ name st' = name (state s)
  /\ empId st' = empId (state s)
  /\ birthDate st' = birthDate (state s)
  /\ selectedUser st' = selectedUser (state s)
  /\ formValues st' = formValues (state s)
  /\ errors st' = snd (Hookform.zodResolver userDataSchema values).
Proof.
  destruct (Hookform.zodResolver userDataSchema values)
    as [[parsed |] errs] eqn:Hres.
  - destruct (resolver_returns_draft values parsed errs Hres) as [-> ->].
    rewrite (exec_submit_valid env values s Hres).
    destruct (selectedUser (state s)) as [u |] eqn:Hsel.
    + rewrite (exec_onSubmit_update env (state s) values _ u Hsel).
      cbn. rewrite Hsel. repeat split.
    + rewrite (exec_onSubmit_create env (state s) values _ Hsel).
      cbn. rewrite Hsel. repeat split.
  - rewrite (exec_submit_invalid env values errs s Hres). cbn. repeat split.
Qed.

Lemma emitted_by_step (s : Sys) (e : Event) :
  emitted_by (step env e) s = effects_of (state s) e.
Proof.
  destruct e as [p | v | v | v | u | values | |].
  - destruct s as [[us nm sel em bd fv er] [n t]], p as [res | err];
      unfold emitted_by; step_cbn; destruct sel; cbn;
      rewrite ?Nat.eqb_refl; cbn;
      rewrite ?skipn_app, ?skipn_all, ?Nat.sub_diag; reflexivity.
  - destruct s as [[us nm sel em bd fv er] [n t]];
      unfold emitted_by; step_cbn; destruct sel; cbn;
      rewrite ?Nat.eqb_refl; cbn; rewrite skipn_all; reflexivity.
  - destruct s as [[us nm sel em bd fv er] [n t]];
      unfold emitted_by; step_cbn; destruct sel; cbn;
      rewrite ?Nat.eqb_refl; cbn; rewrite skipn_all; reflexivity.
  - destruct s as [[us nm sel em bd fv er] [n t]];
      unfold emitted_by; step_cbn; destruct sel; cbn;
      rewrite ?Nat.eqb_refl; cbn; rewrite skipn_all; reflexivity.
  - apply clickRow_silent.
  - apply submit_emits.
  - destruct s as [[us nm sel em bd fv er] [n t]];
      unfold emitted_by; step_cbn; destruct sel; cbn;
      rewrite ?Nat.eqb_refl; cbn; rewrite <- ?app_assoc;
      rewrite ?skipn_app, ?skipn_all, ?Nat.sub_diag; reflexivity.
  - destruct s as [[us nm sel em bd fv er] [n t]];
      unfold emitted_by; step_cbn; destruct sel; cbn;
      rewrite ?skipn_all; reflexivity.
Qed.

Lemma effects_of_get_free (st : State) (e : Event) :
  filter is_get (effects_of st e) = [].
Proof.
  destruct e as [[res | err] | v | v | v | u | values | |]; cbn;
    try reflexivity.
  - destruct (Hookform.zodResolver userDataSchema values) as [[d |] errs];
      [destruct (selectedUser st) |]; reflexivity.
  - destruct (selectedUser st); reflexivity.
Qed.

End StepFacts.

(** X1. The effects of one event, for every event and every state: a
    rejected list request logs its error; an accepted submission sends the
    POST (no selection) or the PATCH to the selected identifier, then
    reloads once or twice; the delete button sends the DELETE for the
    selected identifier and reloads; every other event, a refused
    submission among them, does nothing to the outside.  None of it depends
    on the clock or on how requests settle. *)
Theorem step_emits (env : Env) (s : Sys) (e : Event) :
  emitted_by (step env e) s = effects_of (state s) e.
Proof. apply emitted_by_step. Qed.

(** X2. The list is fetched on mount only and changed by its answer only:
    no event sends a GET, and no event other than the settling of the list
    request changes the in-memory list (create, update and delete never
    touch it). *)
Theorem list_only_from_backend (env : Env) (s : Sys) (e : Event) :
  filter is_get (emitted_by (step env e) s) = []
  /\ (is_list_settled e = false ->
      users (state (exec (step env e) s)) = users (state s)).
Proof.
  split.
  - rewrite emitted_by_step. apply effects_of_get_free.
  - destruct e as [p | v | v | v | u | values | |]; intros He;
      try discriminate He.
    1-4, 6-7:
      destruct s as [[us nm sel em bd fv er] [n t]]; step_cbn;
      destruct sel; cbn; rewrite ?Nat.eqb_refl; cbn;
      try destruct (Nat.eqb _ _); reflexivity.
    apply (submit_keeps_cells env values s).
Qed.

(* ================================================================= *)
(** ** Validation, field by field *)

Section ValidationFacts.

Lemma valid_date_iff (d : Js.Date) :
  Js.valid_date d <-> Js.getTime_isNaN d = false.
Proof.
  destruct d as [| ms]; cbn; split.
  - intros [ms H]. discriminate H.
  - discriminate.
  - reflexivity.
  - intros _. exists ms. reflexivity.
Qed.

(** The error of each field after the resolver has run, from the checks
    of that field alone. *)
Lemma resolver_errors (v : CreateUserData.t) :
  let errs := snd (Hookform.zodResolver userDataSchema v) in
  Hookform.name errs
  = (if Nat.ltb (Js.length (CreateUserData.name v)) 1
     then Some {| Hookform.type := Zod.too_small;
                  Hookform.message := name_message |}
     else None)
  /\ Hookform.empId errs
     = (if Js.isNaN (CreateUserData.empId v)
        then Some {| Hookform.type := Zod.invalid_type;
                     Hookform.message := Zod.default_nan_message |}
        else if negb (Js.isInteger (CreateUserData.empId v))
        then Some {| Hookform.type := Zod.invalid_type;
                     Hookform.message := int_message |}
        else if Js.le (CreateUserData.empId v) Js.zero
        then Some {| Hookform.type := Zod.too_small;
                     Hookform.message := positive_message |}
        else None)
  /\ Hookform.birthDate errs
     = (if Js.getTime_isNaN (CreateUserData.birthDate v)
        then Some {| Hookform.type := Zod.invalid_date;
                     Hookform.message := Zod.default_invalid_date_message |}
        else None).
Proof.
  unfold Hookform.zodResolver, Zod.safeParse.
  rewrite issues_of_userDataSchema.
  destruct (Nat.ltb (Js.length (CreateUserData.name v)) 1);
    destruct (Js.isNaN (CreateUserData.empId v));
    destruct (Js.isInteger (CreateUserData.empId v));
    destruct (Js.le (CreateUserData.empId v) Js.zero);
    destruct (Js.getTime_isNaN (CreateUserData.birthDate v));
    cbn; repeat split.
Qed.

(** What the resolver accepts satisfies the three rules. *)
Lemma resolver_accepts_inv (v parsed : CreateUserData.t)
    (errs : Hookform.FieldErrors) :
  Hookform.zodResolver userDataSchema v = (Some parsed, errs) ->
  CreateUserData.name v <> ""
  /\ Js.positive_integer (CreateUserData.empId v)
  /\ Js.valid_date (CreateUserData.birthDate v).
Proof.
  unfold Hookform.zodResolver, Zod.safeParse.
  rewrite issues_of_userDataSchema.
  destruct (Nat.ltb (Js.length (CreateUserData.name v)) 1) eqn:Hn;
    destruct (Js.isNaN (CreateUserData.empId v)) eqn:Hnan;
    destruct (Js.isInteger (CreateUserData.empId v)) eqn:Hint;
    destruct (Js.le (CreateUserData.empId v) Js.zero) eqn:Hle;
    destruct (Js.getTime_isNaN (CreateUserData.birthDate v)) eqn:Hd;
    cbn; try discriminate.
  intros _. split; [| split].
  - intros H. apply length_zero_iff in H. congruence.
  - apply checks_pass_iff. auto.
  - apply valid_date_iff. exact Hd.
Qed.

End ValidationFacts.

(** X3. After a submission each field has an error exactly when its own
    rule is broken, whatever the other fields are: the name when it is
    empty, the employee ID when it is not a positive integer, the birth
    date when it is not a valid date.  All broken rules are reported at
    once, and an accepted submission leaves no error. *)
Theorem submit_errors_per_field (env : Env) (s : Sys)
    (values : CreateUserData.t) :
  let errs := errors (state (exec (step env (Submit values)) s)) in
  (Hookform.name errs = None <-> CreateUserData.name values <> "")
  /\ (Hookform.empId errs = None
      <-> Js.positive_integer (CreateUserData.empId values))
  /\ (Hookform.birthDate errs = None
      <-> Js.valid_date (CreateUserData.birthDate values)).
Proof.
  intros errs.
  assert (Herrs : errs = snd (Hookform.zodResolver userDataSchema values))
    by apply (submit_keeps_cells env values s).
  destruct (resolver_errors values) as (Hn & He & Hd).
  rewrite Herrs, Hn, He, Hd. clear. split; [| split].
  - destruct (Nat.ltb (Js.length (CreateUserData.name values)) 1) eqn:Hl.
    + apply length_zero_iff in Hl. split; [discriminate | congruence].
    + split; [| reflexivity]. intros _ H.
      apply length_zero_iff in H. congruence.
  - rewrite <- checks_pass_iff.
    destruct (Js.isNaN (CreateUserData.empId values));
      destruct (Js.isInteger (CreateUserData.empId values));
      destruct (Js.le (CreateUserData.empId values) Js.zero); cbn;
      split; try discriminate; try reflexivity; try tauto;
      intros (? & ? & ?); discriminate.
  - rewrite valid_date_iff.
    destruct (Js.getTime_isNaN (CreateUserData.birthDate values));
      split; try discriminate; reflexivity.
Qed.

(** An invalid birth date alone: only the date field has an error. *)
Lemma submit_errors_per_field_witness :
  let values := CreateUserData.mk "山田 太郎" (Js.of_pos 11111) Js.InvalidDate in
  let errs := errors (state (exec (step env0 (Submit values)) listed)) in
  Hookform.name errs = None
  /\ Hookform.empId errs = None
  /\ Hookform.birthDate errs <> None.
Proof.
  destruct (submit_errors_per_field env0 listed
              (CreateUserData.mk "山田 太郎" (Js.of_pos 11111) Js.InvalidDate))
    as (Hn & He & Hd).
  split; [| split].
  - apply Hn. discriminate.
  - apply He. apply of_pos_positive_integer.
  - intros H. apply Hd in H. destruct H as [ms H]. discriminate H.
Defined.

(** X4. A submission sends a request that changes the backend exactly when
    the draft satisfies all three rules: a non-empty name, a positive
    integer employee ID and a valid birth date. *)
Theorem submit_sends_iff_valid (env : Env) (s : Sys)
    (values : CreateUserData.t) :
  (CreateUserData.name values <> ""
   /\ Js.positive_integer (CreateUserData.empId values)
   /\ Js.valid_date (CreateUserData.birthDate values))
  <-> (exists request,
         In request (emitted_by (step env (Submit values)) s)
         /\ is_mutation request = true).
Proof.
  rewrite submit_emits. cbn [effects_of]. split.
  - intros (Hn & He & Hd).
    rewrite (resolver_accepts values Hn He Hd).
    destruct (selectedUser (state s)) as [u |]; eexists;
      (split; [left; reflexivity | reflexivity]).
  - intros (request & Hin & _).
    destruct (Hookform.zodResolver userDataSchema values)
      as [[parsed |] errs] eqn:Hres.
    + apply (resolver_accepts_inv values parsed errs Hres).
    + destruct Hin.
Qed.

Lemma submit_sends_iff_valid_witness :
  exists request,
    In request (emitted_by (step env0 (Submit yamada)) listed)
    /\ is_mutation request = true.
Proof.
  apply (submit_sends_iff_valid env0 listed yamada).
  split; [discriminate | split].
  - apply of_pos_positive_integer.
  - exists 631152000000%Z. reflexivity.
Defined.

(** X5. Which message the employee ID field shows: the library's message
    for NaN; the message of [int] for every other value that is not an
    integer, also when it is negative; the message of [positive] for zero
    and the negative integers. *)
Theorem empId_message_precedence (env : Env) (s : Sys)
    (values : CreateUserData.t) :
  let x := CreateUserData.empId values in
  let shown := Hookform.empId (errors (state (exec (step env (Submit values)) s))) in
  (x = Js.NaN ->
   shown = Some {| Hookform.type := Zod.invalid_type;
                   Hookform.message := Zod.default_nan_message |})
  /\ (x <> Js.NaN -> ~ (exists n, Js.denotes x n) ->
      shown = Some {| Hookform.type := Zod.invalid_type;
                      Hookform.message := "整数値で入力してください" |})
  /\ (forall n, Js.denotes x n -> (n <= 0)%Z ->
      shown = Some {| Hookform.type := Zod.too_small;
                      Hookform.message := "1以上で入力してください" |}).
Proof.
  intros x shown.
  assert (Hshown : shown
                   = Hookform.empId
                       (snd (Hookform.zodResolver userDataSchema values))).
  { unfold shown. f_equal. apply (submit_keeps_cells env values s). }
  destruct (resolver_errors values) as (_ & He & _).
  rewrite Hshown, He. fold x. clear. split; [| split].
  - intros ->. reflexivity.
  - intros Hnan Hno.
    assert (Hn : Js.isNaN x = false)
      by (destruct x; try reflexivity; contradiction Hnan; reflexivity).
    assert (Hi : Js.isInteger x = false).
    { destruct (Js.isInteger x) eqn:Hi; [| reflexivity].
      apply isInteger_denotes in Hi. contradiction. }
    rewrite Hn, Hi. reflexivity.
  - intros n Hden Hle.
    assert (Hn : Js.isNaN x = false) by (destruct x; trivial; contradiction).
    assert (Hi : Js.isInteger x = true)
      by (apply isInteger_denotes; exists n; exact Hden).
    rewrite Hn, Hi, (le_zero_denotes x n Hden). cbn.
    apply Z.leb_le in Hle. rewrite Hle. reflexivity.
Qed.

(** -1.5 gets the message of [int], -2 the message of [positive]. *)
Lemma empId_message_precedence_witness :
  Hookform.empId
    (errors (state (exec (step env0
                            (Submit (CreateUserData.mk "山田 太郎"
                                       (S754_finite true 3 (-1))
                                       (Js.DateAt 0))))
                      listed)))
  = Some {| Hookform.type := Zod.invalid_type;
            Hookform.message := "整数値で入力してください" |}
  /\ Hookform.empId
       (errors (state (exec (step env0
                               (Submit (CreateUserData.mk "山田 太郎"
                                          (S754_finite true 2 0)
                                          (Js.DateAt 0))))
                         listed)))
     = Some {| Hookform.type := Zod.too_small;
               Hookform.message := "1以上で入力してください" |}.
Proof.
  split.
  - apply (empId_message_precedence env0 listed
             (CreateUserData.mk "山田 太郎" (S754_finite true 3 (-1))
                (Js.DateAt 0))).
    + discriminate.
    + intros [n Hn]. cbn in Hn. lia.
  - apply (proj2 (proj2 (empId_message_precedence env0 listed
                           (CreateUserData.mk "山田 太郎" (S754_finite true 2 0)
                              (Js.DateAt 0))))
             (-2)%Z); [reflexivity | lia].
Defined.

(* ================================================================= *)
(** ** Sequences of events *)

Section SequenceFacts.

Variable env : Env.

Lemma run_app (es1 es2 : list Event) (s : Sys) :
  exec (run env (es1 ++ es2)) s = exec (run env es2) (exec (run env es1) s).
Proof.
  revert s. induction es1 as [| e es1 IH]; intros s.
  - reflexivity.
  - cbn [app]. rewrite !run_cons. apply IH.
Qed.

Lemma run_one (e : Event) (s : Sys) :
  exec (run env [e]) s = exec (step env e) s.
Proof. rewrite run_cons. reflexivity. Qed.

(** Typing changes the three field cells and nothing else. *)
Lemma edit_frame (e : Event) (s : Sys) :
  is_edit e = true ->
  let s' := exec (step env e) s in
  users (state s') = users (state s)
  /\ selectedUser (state s') = selectedUser (state s)
  /\ formValues (state s') = formValues (state s)
  /\ errors (state s') = errors (state s)
  /\ world s' = world s.
Proof.
  destruct s as [[us nm sel em bd fv er] [n t]].
  destruct e; try discriminate; intros _; destruct sel; step_cbn;
    rewrite ?Nat.eqb_refl; repeat split.
Qed.

Lemma edits_frame (es : list Event) :
  forallb is_edit es = true ->
  forall s,
    let s' := exec (run env es) s in
    users (state s') = users (state s)
    /\ selectedUser (state s') = selectedUser (state s)
    /\ formValues (state s') = formValues (state s)
    /\ errors (state s') = errors (state s)
    /\ world s' = world s.
Proof.
  induction es as [| e es IH]; intros Hes s.
  - repeat split.
  - cbn in Hes. apply andb_true_iff in Hes as [He Hes].
    cbn zeta. rewrite run_cons.
    destruct (IH Hes (exec (step env e) s)) as (H1 & H2 & H3 & H4 & H5).
    destruct (edit_frame e s He) as (G1 & G2 & G3 & G4 & G5).
    repeat split; congruence.
Qed.

(** A click on a row that is not the selected object. *)
Lemma clickRow_fresh (u : User.t) (s : Sys) :
  Object_is (selectedUser (state s)) (Some u) = false ->
  fields_of u (state (exec (step env (ClickRow u)) s)).
Proof.
  destruct s as [[us nm sel em bd fv er] [n t]]. cbn [state selectedUser].
  intros His. step_cbn. rewrite His. cbn. repeat split.
Qed.

Lemma clickRow_frame (u : User.t) (s : Sys) :
  let s' := exec (step env (ClickRow u)) s in
  users (state s') = users (state s)
  /\ formValues (state s') = Some (values_of u)
  /\ errors (state s') = Hookform.no_errors
  /\ world s' = world s.
Proof.
  destruct s as [[us nm sel em bd fv er] [n t]]. step_cbn.
  destruct (Object_is sel (Some u)); cbn; repeat split.
Qed.

(** The button of line 179, or its absence. *)
Lemma clickClear_result (s : Sys) :
  let s' := exec (step env ClickClear) s in
  selectedUser (state s') = None
  /\ users (state s') = users (state s)
  /\ formValues (state s') = formValues (state s)
  /\ errors (state s') = errors (state s)
  /\ trace (world s') = trace (world s)
  /\ (truthy (selectedUser (state s)) = true ->
      name (state s') = "" /\ empId (state s') = Js.zero).
Proof.
  destruct s as [[us nm sel em bd fv er] [n t]].
  destruct sel as [u |]; step_cbn; repeat split; discriminate.
Qed.

Lemma exec_clickDelete (u : User.t) (s : Sys) :
  selectedUser (state s) = Some u ->
  exec (step env ClickDelete) s
  = traced [axios_delete (user_id_url (User.id u)); location_reload] s.
Proof.
  destruct s as [[us nm sel em bd fv er] [n t]]. cbn [state selectedUser].
  intros ->. unfold traced. step_cbn. rewrite Nat.eqb_refl.
  rewrite <- app_assoc. reflexivity.
Qed.

End SequenceFacts.

(** X6. Once a row has been selected, and whatever the operator then types,
    the delete button sends one DELETE to the identifier of the selected
    record and reloads once; the component's own state is not touched (the
    record stays in the list and stays selected). *)
Theorem delete_after_select (env : Env) (s : Sys) (u : User.t)
    (edits : list Event) :
  forallb is_edit edits = true ->
  let editing := exec (run env (ClickRow u :: edits)) s in
  emitted_by (step env ClickDelete) editing
  = [axios_delete (user_id_url (User.id u)); location_reload]
  /\ state (exec (step env ClickDelete) editing) = state editing.
Proof.
  intros Hedits editing.
  assert (Hsel : selectedUser (state editing) = Some u).
  { subst editing. rewrite run_cons, edits_keep_selection by exact Hedits.
    apply clickRow_selects. }
  rewrite (exec_clickDelete env u editing Hsel). split.
  - apply emitted_by_traced. rewrite (exec_clickDelete env u editing Hsel).
    reflexivity.
  - reflexivity.
Qed.

Lemma delete_after_select_witness :
  let editing := exec (run env0 [ClickRow user5; ChangeName "鈴木"]) listed in
  emitted_by (step env0 ClickDelete) editing
  = [axios_delete (user_id_url (Js.of_pos 5)); location_reload]
  /\ state (exec (step env0 ClickDelete) editing) = state editing.
Proof.
  apply (delete_after_select env0 listed user5 [ChangeName "鈴木"]).
  reflexivity.
Defined.

(** X7. When the list request is fulfilled, the mounted component holds
    exactly the users of the response, in their order; the form is in
    create mode with the default field values, no error and nothing given
    to the form library; one GET was sent and nothing was logged. *)
Theorem list_success_fills_table (env : Env) (w : World)
    (res : AxiosResponse) :
  network env (axios_get user_url) = Fulfilled res ->
  let s := loaded env w in
  users (state s) = data res
  /\ cleared (Js.DateAt (clock env (S (reads w)))) (state s)
  /\ errors (state s) = Hookform.no_errors
  /\ formValues (state s) = None
  /\ trace (world s) = trace w ++ [axios_get user_url].
Proof.
  intros Hnet. destruct w as [n t]. unfold loaded. rewrite Hnet.
  unfold mount, initial. step_cbn. repeat split.
Qed.

Lemma list_success_fills_table_witness :
  users (state listed) = [user5]
  /\ cleared (Js.DateAt (clock env0 1)) (state listed)
  /\ errors (state listed) = Hookform.no_errors
  /\ formValues (state listed) = None
  /\ trace (world listed) = [axios_get user_url].
Proof.
  apply (list_success_fills_table env0 world0 {| data := [user5] |}).
  reflexivity.
Defined.

(** X8. After the clear button, and whatever is typed next, a click on a
    row fills the three field cells with that record's values, also when
    it is the row that was selected before the clearing. *)
Theorem select_after_clear_populates (env : Env) (s : Sys) (u : User.t)
    (edits : list Event) :
  forallb is_edit edits = true ->
  let s' := exec (run env (ClickClear :: edits ++ [ClickRow u])) s in
  fields_of u (state s') /\ selectedUser (state s') = Some u.
Proof.
  intros Hedits s'. subst s'.
  rewrite run_cons, run_app, run_one.
  split; [| apply clickRow_selects].
  apply clickRow_fresh.
  destruct (edits_frame env edits Hedits (exec (step env ClickClear) s))
    as (_ & -> & _).
  destruct (clickClear_result env s) as (-> & _). reflexivity.
Qed.

(** The sequence in which a second click alone would keep the typed name:
    with the clearing in between, the record's name is back. *)
Lemma select_after_clear_populates_witness :
  let typed := exec (run env0 [ClickRow user5; ChangeName "鈴木"]) listed in
  let s :=
    exec (run env0 (ClickClear :: [ChangeName "x"] ++ [ClickRow user5]))
      typed in
  fields_of user5 (state s) /\ selectedUser (state s) = Some user5.
Proof.
  apply (select_after_clear_populates env0
           (exec (run env0 [ClickRow user5; ChangeName "鈴木"]) listed)
           user5 [ChangeName "x"]).
  reflexivity.
Defined.

(** X9. The clear button does not reach the form library: after a row has
    been selected, edited and cleared, the name and employee ID cells hold
    the defaults and no user is selected, while the values last given to
    [reset] are still those of the record; the errors are the empty ones
    that [reset] left at the click on the row. *)
Theorem clear_keeps_library_values (env : Env) (s : Sys) (u : User.t)
    (edits : list Event) :
  forallb is_edit edits = true ->
  let s' := exec (run env (ClickRow u :: edits ++ [ClickClear])) s in
  name (state s') = ""
  /\ empId (state s') = Js.zero
  /\ selectedUser (state s') = None
  /\ formValues (state s') = Some (values_of u)
  /\ errors (state s') = Hookform.no_errors.
Proof.
  intros Hedits s'. subst s'.
  rewrite run_cons, run_app, run_one.
  set (s1 := exec (step env (ClickRow u)) s).
  set (s2 := exec (run env edits) s1).
  destruct (clickRow_frame env u s) as (_ & Hfv1 & Her1 & _). fold s1 in Hfv1, Her1.
  destruct (edits_frame env edits Hedits s1) as (_ & Hsel2 & Hfv2 & Her2 & _).
  fold s2 in Hsel2, Hfv2, Her2.
  assert (Hsel1 : selectedUser (state s1) = Some u) by apply clickRow_selects.
  destruct (clickClear_result env s2) as (Hsel3 & _ & Hfv3 & Her3 & _ & Hcl).
  rewrite Hsel2, Hsel1 in Hcl. destruct (Hcl eq_refl) as [Hn He].
  repeat split; congruence.
Qed.

Lemma clear_keeps_library_values_witness :
  let s' :=
    exec (run env0 (ClickRow user5 :: [ChangeName "鈴木"] ++ [ClickClear]))
      listed in
  name (state s') = ""
  /\ empId (state s') = Js.zero
  /\ selectedUser (state s') = None
  /\ formValues (state s') = Some (values_of user5)
  /\ errors (state s') = Hookform.no_errors.
Proof.
  apply (clear_keeps_library_values env0 listed user5 [ChangeName "鈴木"]).
  reflexivity.
Defined.

(** C10, on the code. [clearField] sets the employee ID cell to 0, which
    is not a positive integer, but it does not reach the form library: the
    clear button exists only after a click on a row, which gave the record
    to [reset], and a submission without typing validates that record.
    For a record that satisfies the schema, the cleared form (no user
    selected) is therefore accepted and sends the POST of the old record,
    followed by the reload. *)
Theorem cleared_form_posts_old_record (env : Env) (s : Sys) (u : User.t) :
  User.name u <> "" ->
  Js.positive_integer (User.empId u) ->
  Js.valid_date (User.birthDate u) ->
  let cleared := exec (run env [ClickRow u; ClickClear]) s in
  name (state cleared) = ""
  /\ empId (state cleared) = Js.zero
  /\ ~ Js.positive_integer (empId (state cleared))
  /\ selectedUser (state cleared) = None
  /\ formValues (state cleared) = Some (values_of u)
  /\ emitted_by (step env (Submit (values_of u))) cleared
     = [axios_post user_url (values_of u); location_reload].
Proof.
  intros Hname Hemp Hdate cleared. subst cleared.
  rewrite run_cons, run_one.
  set (s1 := exec (step env (ClickRow u)) s).
  assert (Hsel1 : selectedUser (state s1) = Some u) by apply clickRow_selects.
  destruct (clickRow_frame env u s) as (_ & Hfv1 & _). fold s1 in Hfv1.
  destruct (clickClear_result env s1) as (Hsel2 & _ & Hfv2 & _ & _ & Hcl).
  rewrite Hsel1 in Hcl. destruct (Hcl eq_refl) as [Hn He].
  set (s2 := exec (step env ClickClear) s1) in *.
  assert (Hres : Hookform.zodResolver userDataSchema (values_of u)
                 = (Some (values_of u), Hookform.no_errors))
    by (apply resolver_accepts; assumption).
  repeat split.
  - exact Hn.
  - exact He.
  - rewrite He. apply zero_not_positive_integer.
  - exact Hsel2.
  - congruence.
  - apply emitted_by_traced.
    rewrite (exec_submit_valid env (values_of u) s2 Hres).
    rewrite (exec_onSubmit_create env (state s2) (values_of u) _ Hsel2).
    reflexivity.
Qed.

(** The record with identifier 5 is selected, the form is cleared and
    submitted as it is: the record is posted again. *)
Lemma cleared_form_posts_old_record_witness :
  let cleared := exec (run env0 [ClickRow user5; ClickClear]) listed in
  name (state cleared) = ""
  /\ empId (state cleared) = Js.zero
  /\ ~ Js.positive_integer (empId (state cleared))
  /\ selectedUser (state cleared) = None
  /\ formValues (state cleared) = Some (values_of user5)
  /\ emitted_by (step env0 (Submit (values_of user5))) cleared
     = [axios_post user_url (values_of user5); location_reload].
Proof.
  apply (cleared_form_posts_old_record env0 listed user5).
  - discriminate.
  - apply of_pos_positive_integer.
  - exists 0%Z. reflexivity.
Defined.

(* ================================================================= *)
(** ** Rendering *)

Section RenderFacts.

Variable format_yyyyMMdd : Z -> string.
Variable toISOString_of : Z -> string.

Local Abbreviation render := (View.render format_yyyyMMdd toISOString_of).
Local Abbreviation map_rows := (View.map_rows format_yyyyMMdd).
Local Abbreviation row := (View.row format_yyyyMMdd).

Lemma map_rows_some (st : State) (us : list User.t) :
  dates_ok us = true -> exists rs, map_rows st us = Some rs.
Proof.
  induction us as [| u us IH]; intros Hok.
  - exists []. reflexivity.
  - cbn in Hok. apply andb_true_iff in Hok as [Hu Hus].
    destruct (IH Hus) as [rs Hrs].
    cbn. unfold View.row, View.formatDate, View.format.
    destruct (User.birthDate u); [discriminate Hu |].
    cbn. rewrite Hrs. eexists. reflexivity.
Qed.

Lemma map_rows_none (st : State) (us : list User.t) :
  dates_ok us = false -> map_rows st us = None.
Proof.
  induction us as [| u us IH]; intros Hok.
  - discriminate Hok.
  - cbn in Hok. cbn.
    unfold View.row, View.formatDate, View.format.
    destruct (User.birthDate u); [reflexivity |].
    cbn in Hok. cbn. rewrite (IH Hok). reflexivity.
Qed.

(** Rendering succeeds exactly on the states whose dates are valid. *)
Lemma render_some_iff (st : State) :
  (exists v, render st = Some v) <-> holds_valid_dates st.
Proof.
  unfold View.render, holds_valid_dates. split.
  - intros [v Hv].
    destruct (dates_ok (users st)) eqn:Hus.
    + split; [| reflexivity].
      destruct (birthDate st); [| reflexivity].
      destruct (View.map_rows format_yyyyMMdd st (users st));
        discriminate Hv.
    + rewrite (map_rows_none st (users st) Hus) in Hv. discriminate Hv.
  - intros [Hbd Hus].
    destruct (map_rows_some st (users st) Hus) as [rs Hrs].
    rewrite Hrs.
    destruct (birthDate st); [discriminate Hbd |].
    eexists. reflexivity.
Qed.

(** No row is highlighted when no user of the list is the selected
    object. *)
Lemma no_row_highlighted (st : State) (us : list User.t)
    (rs : list View.Row) :
  map_rows st us = Some rs ->
  (forall x, In x us -> Object_is (selectedUser st) (Some x) = false) ->
  filter View.highlighted rs = [].
Proof.
  revert rs. induction us as [| x us IH]; intros rs Hrs Hno.
  - injection Hrs as <-. reflexivity.
  - cbn in Hrs.
    destruct (View.row format_yyyyMMdd st x) as [r |] eqn:Hr;
      [| discriminate Hrs].
    destruct (View.map_rows format_yyyyMMdd st us) as [rs' |] eqn:Hrs';
      [| discriminate Hrs].
    injection Hrs as <-.
    unfold View.row in Hr.
    destruct (View.formatDate format_yyyyMMdd (User.birthDate x));
      [| discriminate Hr].
    injection Hr as <-. cbn.
    rewrite (Hno x (or_introl eq_refl)).
    apply (IH rs' eq_refl). intros y Hy. apply Hno. right. exact Hy.
Qed.

(** With distinct objects in the list, the selected one gives the only
    highlighted row. *)
Lemma one_row_of_list (st : State) (u : User.t) (us : list User.t)
    (rs : list View.Row) :
  selectedUser st = Some u ->
  NoDup (map User.ref us) ->
  In u us ->
  map_rows st us = Some rs ->
  exists r, filter View.highlighted rs = [r] /\ row st u = Some r.
Proof.
  intros Hsel. revert rs.
  induction us as [| x us IH]; intros rs Hnd Hin Hrs; [destruct Hin |].
  cbn in Hnd. apply NoDup_cons_iff in Hnd as [Hx Hnd].
  cbn in Hrs.
  destruct (View.row format_yyyyMMdd st x) as [r |] eqn:Hr;
    [| discriminate Hrs].
  destruct (View.map_rows format_yyyyMMdd st us) as [rs' |] eqn:Hrs';
    [| discriminate Hrs].
  injection Hrs as <-.
  assert (Hhl : View.highlighted r = Nat.eqb (User.ref u) (User.ref x)).
  { unfold View.row in Hr.
    destruct (View.formatDate format_yyyyMMdd (User.birthDate x));
      [| discriminate Hr].
    injection Hr as <-. cbn. rewrite Hsel. reflexivity. }
  destruct Hin as [-> | Hin].
  - exists r. split; [| exact Hr].
    cbn. rewrite Hhl, Nat.eqb_refl. f_equal.
    apply (no_row_highlighted st us rs' Hrs').
    intros y Hy. rewrite Hsel. cbn. apply Nat.eqb_neq.
    intros Heq. apply Hx. rewrite Heq. apply in_map. exact Hy.
  - destruct (IH rs' Hnd Hin eq_refl) as (r0 & Hf & Hr0).
    exists r0. split; [| exact Hr0].
    cbn. rewrite Hhl.
    assert (Hne : User.ref u <> User.ref x).
    { intros Heq. apply Hx. rewrite <- Heq. apply in_map. exact Hin. }
    apply Nat.eqb_neq in Hne. rewrite Hne. exact Hf.
Qed.

Lemma render_rows (st : State) (v : View.t) :
  render st = Some v -> map_rows st (users st) = Some (View.rows v).
Proof.
  unfold View.render.
  destruct (View.map_rows format_yyyyMMdd st (users st)) as [rs |];
    [| discriminate].
  destruct (View.toISOString toISOString_of (birthDate st));
    [| discriminate].
  intros [= <-]. reflexivity.
Qed.

(** One step keeps the dates valid when the event brings valid dates. *)
Lemma step_keeps_valid_dates (env : Env) (e : Event) (s : Sys) :
  event_ok e = true ->
  holds_valid_dates (state s) ->
  holds_valid_dates (state (exec (step env e) s)).
Proof.
  unfold holds_valid_dates.
  destruct e as [[res | err] | v | v | d | u | values | |];
    intros He [Hbd Hus].
  7: { destruct (submit_keeps_cells env values s)
         as (-> & _ & _ & -> & _). split; assumption. }
  all: destruct s as [[us nm sel em bd fv er] [n t]];
    cbn [state birthDate users] in Hbd, Hus; cbn [event_ok] in He;
    step_cbn; destruct sel; cbn; rewrite ?Nat.eqb_refl; cbn;
    try destruct (Nat.eqb _ _); cbn; split; assumption || reflexivity.
Qed.

Lemma run_keeps_valid_dates (env : Env) (es : list Event) :
  forallb event_ok es = true ->
  forall s,
    holds_valid_dates (state s) ->
    holds_valid_dates (state (exec (run env es) s)).
Proof.
  induction es as [| e es IH]; intros Hes s Hs.
  - exact Hs.
  - cbn in Hes. apply andb_true_iff in Hes as [He Hes].
    rewrite run_cons. apply (IH Hes).
    apply step_keeps_valid_dates; assumption.
Qed.

Lemma mount_holds_valid_dates (env : Env) (w : World) :
  holds_valid_dates (state (mount env w)).
Proof. destruct w as [n t]. split; reflexivity. Qed.

End RenderFacts.

(** X10. When the date input delivers a value that is not a date (the
    invalid date, as for a cleared input), the next render throws: the
    value of the birth date input is [birthDate.toISOString()], which has
    no result on the invalid date. *)
Theorem invalid_date_input_breaks_render (format_yyyyMMdd : Z -> string)
    (toISOString_of : Z -> string) (env : Env) (s : Sys) :
  View.render format_yyyyMMdd toISOString_of
    (state (exec (step env (ChangeBirthDate Js.InvalidDate)) s))
  = None.
Proof.
  destruct s as [[us nm sel em bd fv er] [n t]].
  step_cbn. destruct sel; cbn; rewrite ?Nat.eqb_refl; cbn;
    unfold View.render; cbn;
    destruct (View.map_rows format_yyyyMMdd _ us); reflexivity.
Qed.

(** X11. From mount on, as long as the list answers, the date input and
    the clicked rows bring valid dates, the component can always be
    rendered: neither [formatDate] on a row nor [toISOString] on the birth
    date cell throws, whatever the events are. *)
Theorem render_never_throws_on_valid_dates (format_yyyyMMdd : Z -> string)
    (toISOString_of : Z -> string) (env : Env) (w : World)
    (es : list Event) :
  forallb event_ok es = true ->
  exists v,
    View.render format_yyyyMMdd toISOString_of
      (state (exec (run env es) (mount env w)))
    = Some v.
Proof.
  intros Hes. apply render_some_iff.
  apply run_keeps_valid_dates; [exact Hes |].
  apply mount_holds_valid_dates.
Qed.

Lemma render_never_throws_on_valid_dates_witness :
  exists v,
    View.render sample_format sample_iso
      (state (exec (run env0 [ListSettled (Fulfilled {| data := [user5] |});
                              ClickRow user5; ChangeName "鈴木";
                              ChangeBirthDate (Js.DateAt 86400000);
                              ClickClear])
                (mount env0 world0)))
    = Some v.
Proof.
  apply (render_never_throws_on_valid_dates sample_format sample_iso env0
           world0).
  reflexivity.
Defined.

(** X12. When the objects of the list are distinct, a click on a row of
    the table leaves exactly one highlighted row in what is rendered, the
    one of the clicked record; after the clear button no row is
    highlighted. *)
Theorem one_row_highlighted (format_yyyyMMdd : Z -> string)
    (toISOString_of : Z -> string) (env : Env) (s : Sys) (u : User.t) :
  NoDup (map User.ref (users (state s))) ->
  In u (users (state s)) ->
  (forall v,
     View.render format_yyyyMMdd toISOString_of
       (state (exec (step env (ClickRow u)) s)) = Some v ->
     exists r,
       filter View.highlighted (View.rows v) = [r]
       /\ View.cell_name r = User.name u
       /\ View.cell_empId r = User.empId u)
  /\ (forall v,
        View.render format_yyyyMMdd toISOString_of
          (state (exec (step env ClickClear) s)) = Some v ->
        filter View.highlighted (View.rows v) = []).
Proof.
  intros Hnd Hin. split; intros v Hv; apply render_rows in Hv.
  - destruct (clickRow_frame env u s) as (Hus & _).
    rewrite Hus in Hv.
    destruct (one_row_of_list format_yyyyMMdd
                (state (exec (step env (ClickRow u)) s)) u
                (users (state s)) (View.rows v)
                (clickRow_selects env u s) Hnd Hin Hv)
      as (r & Hf & Hr).
    exists r. split; [exact Hf |].
    unfold View.row in Hr.
    destruct (View.formatDate format_yyyyMMdd (User.birthDate u));
      [| discriminate Hr].
    injection Hr as <-. split; reflexivity.
  - apply (no_row_highlighted format_yyyyMMdd _ _ _ Hv).
    intros x _. destruct (clickClear_result env s) as (-> & _). reflexivity.
Qed.

Lemma one_row_highlighted_witness :
  exists v,
    View.render sample_format sample_iso
      (state (exec (step env0 (ClickRow user5)) listed)) = Some v
    /\ exists r,
         filter View.highlighted (View.rows v) = [r]
         /\ View.cell_name r = User.name user5
         /\ View.cell_empId r = User.empId user5.
Proof.
  assert (H : exists v,
             View.render sample_format sample_iso
               (state (exec (step env0 (ClickRow user5)) listed)) = Some v)
    by (vm_compute; eexists; reflexivity).
  destruct H as [v Hv]. exists v. split; [exact Hv |].
  refine (proj1 (one_row_highlighted sample_format sample_iso env0 listed
                   user5 _ _) v Hv).
  - repeat constructor. intros [].
  - left. reflexivity.
Defined.

Lemma list_only_from_backend_witness :
  users (state (exec (step env0 (Submit yamada)) listed)) = [user5].
Proof.
  apply (list_only_from_backend env0 listed (Submit yamada)). reflexivity.
Defined.

(** X13. The effect of line 108 does not start itself again: when it has
    run, [selectedUser] is still the object (or the null) of the render it
    ran in, although [clearField] sets it, so the render that follows runs
    no effect and changes nothing. *)
Theorem effect_does_not_retrigger (env : Env) (s : Sys) :
  let s' := exec (selectedUserEffect env (state s)) s in
  Object_is (selectedUser (state s)) (selectedUser (state s')) = true
  /\ commit env (state s) s' = (tt, s').
Proof.
  intros s'.
  assert (H : Object_is (selectedUser (state s)) (selectedUser (state s'))
              = true) by apply selectedUserEffect_stable.
  split; [exact H |]. unfold commit. rewrite H. reflexivity.
Qed.

Section ViewErrorFacts.

Variable format_yyyyMMdd : Z -> string.
Variable toISOString_of : Z -> string.

Lemma render_errors (st : State) (v : View.t) :
  View.render format_yyyyMMdd toISOString_of st = Some v ->
  View.error_name v = View.shown (Hookform.name (errors st))
  /\ View.error_empId v = View.shown (Hookform.empId (errors st))
  /\ View.error_birthDate v = View.shown (Hookform.birthDate (errors st)).
Proof.
  unfold View.render.
  destruct (View.map_rows format_yyyyMMdd st (users st)); [| discriminate].
  destruct (View.toISOString toISOString_of (birthDate st)); [| discriminate].
  intros [= <-]. repeat split.
Qed.

End ViewErrorFacts.

(** X14. What the form shows after a submission: under each input there is
    a message exactly when the rule of that field is broken (every message
    of the schema is a non-empty text, so the guard of lines 156, 163 and
    170 lets it through), and under the name input it is the
    minimum-length message. *)
Theorem view_shows_errors_per_field (format_yyyyMMdd : Z -> string)
    (toISOString_of : Z -> string) (env : Env) (s : Sys)
    (values : CreateUserData.t) (v : View.t) :
  View.render format_yyyyMMdd toISOString_of
    (state (exec (step env (Submit values)) s)) = Some v ->
  (View.error_name v = None <-> CreateUserData.name values <> "")
  /\ (CreateUserData.name values = "" ->
      View.error_name v = Some "１文字以上で入力してください")
  /\ (View.error_empId v = None
      <-> Js.positive_integer (CreateUserData.empId values))
  /\ (View.error_birthDate v = None
      <-> Js.valid_date (CreateUserData.birthDate values)).
Proof.
  intros Hv.
  destruct (render_errors format_yyyyMMdd toISOString_of _ v Hv)
    as (-> & -> & ->).
  assert (Herrs : errors (state (exec (step env (Submit values)) s))
                  = snd (Hookform.zodResolver userDataSchema values))
    by apply (submit_keeps_cells env values s).
  destruct (resolver_errors values) as (Hn & He & Hd).
  rewrite Herrs, Hn, He, Hd. clear. split; [| split; [| split]].
  - destruct (Nat.ltb (Js.length (CreateUserData.name values)) 1) eqn:Hl.
    + apply length_zero_iff in Hl. split; [discriminate | congruence].
    + split; [| reflexivity]. intros _ H.
      apply length_zero_iff in H. congruence.
  - intros H. apply length_zero_iff in H. rewrite H. reflexivity.
  - rewrite <- checks_pass_iff.
    destruct (Js.isNaN (CreateUserData.empId values));
      destruct (Js.isInteger (CreateUserData.empId values));
      destruct (Js.le (CreateUserData.empId values) Js.zero); cbn;
      split; try discriminate; try reflexivity; try tauto;
      intros (? & ? & ?); discriminate.
  - rewrite valid_date_iff.
    destruct (Js.getTime_isNaN (CreateUserData.birthDate values));
      split; try discriminate; reflexivity.
Qed.

Lemma view_shows_errors_per_field_witness :
  exists v,
    View.render sample_format sample_iso
      (state (exec (step env0
                      (Submit (CreateUserData.mk "" (Js.of_pos 11111)
                                 (Js.DateAt 0))))
                listed)) = Some v
    /\ View.error_name v = Some "１文字以上で入力してください"
    /\ View.error_empId v = None.
Proof.
  assert (H : exists v,
             View.render sample_format sample_iso
               (state (exec (step env0
                               (Submit (CreateUserData.mk "" (Js.of_pos 11111)
                                          (Js.DateAt 0))))
                         listed)) = Some v)
    by (vm_compute; eexists; reflexivity).
  destruct H as [v Hv]. exists v. split; [exact Hv |].
  destruct (view_shows_errors_per_field sample_format sample_iso env0 listed
              (CreateUserData.mk "" (Js.of_pos 11111) (Js.DateAt 0)) v Hv)
    as (_ & Hname & Hemp & _).
  split.
  - apply Hname. reflexivity.
  - apply Hemp. apply of_pos_positive_integer.
Defined.
